(** * Railway ticket booking system: a model of [Main.py] and its properties

    The program is a thin service layer over a document store: collections
    of trains, stations, bookings and users, service functions that query
    or update them, and HTTP routes that turn falsy results into
    [HTTPException]s.  The model keeps that shape:

    - documents are records, collections are lists in store order;
    - the store primitives the program uses ([find], [find_one],
      [count_documents], [insert_one], [update_one]) are functions on those
      lists; [insert_one] enforces the unique index on [pnr] that
      [connect_to_mongo] creates, and gives the document a new [ObjectId];
    - [random.choices] reads a generator that is part of the world;
    - service functions and routes are computations in a small
      state-and-exception monad over the world.  A route is its handler:
      the value it returns or the exception it raises.

    A document is encoded before it is sent to the store, and the encoder
    has no codec for a [datetime.date]; [insert_one] models that step.  A
    query value matches a stored value when both denote the same string,
    the same [_id] or the same instant.  The [trains] collection is
    reference data that the program only reads; a store is given with the
    trains and bookings it holds.  The [users] collection takes no part in
    searching, booking or cancelling and has a world of its own; the
    [stations] collection is queried nowhere. *)

From Stdlib Require Import PrimFloat Ascii String.
From stdpp Require Import gmap strings list fin_maps.

Open Scope Z_scope.

(** ** Dates and times *)

(** Python's naive [datetime]: compared field by field, most significant
    first. *)
Record datetime := mk_datetime {
  year : Z; month : Z; day : Z;
  hour : Z; minute : Z; second : Z; microsecond : Z
}.

(** Python's [date]. *)
Record date := mk_date { d_year : Z; d_month : Z; d_day : Z }.

Fixpoint lex_compare (a b : list Z) : comparison :=
  match a, b with
  | [], [] => Eq
  | [], _ :: _ => Lt
  | _ :: _, [] => Gt
  | x :: a', y :: b' =>
      match Z.compare x y with
      | Eq => lex_compare a' b'
      | c => c
      end
  end.

Definition dt_fields (t : datetime) : list Z :=
  [year t; month t; day t; hour t; minute t; second t; microsecond t].

Definition dt_compare (a b : datetime) : comparison :=
  lex_compare (dt_fields a) (dt_fields b).

(** [a < b] and [a >= b] on datetimes. *)
Definition dt_lt (a b : datetime) : bool :=
  match dt_compare a b with Lt => true | _ => false end.
Definition dt_ge (a b : datetime) : bool := negb (dt_lt a b).

(** [t.replace(hour=h, minute=m, second=s)]: the other fields, the
    microsecond included, are kept. *)
Definition replace_hms (t : datetime) (h m s : Z) : datetime :=
  {| year := year t; month := month t; day := day t;
     hour := h; minute := m; second := s; microsecond := microsecond t |}.

(** The datetime a [date] denotes in a query or in the store: midnight of
    that day. *)
Definition datetime_of_date (d : date) : datetime :=
  {| year := d_year d; month := d_month d; day := d_day d;
     hour := 0; minute := 0; second := 0; microsecond := 0 |}.

(** *** [datetime.strptime(s, "%Y-%m-%d")] on ASCII input

    [%Y] is exactly four digits, [%m] is [1[0-2]|0[1-9]|[1-9]], [%d] is
    [3[01]|[12]\d|0[1-9]|[1-9]| [1-9]]; the whole string must be consumed
    and the date must exist, otherwise [ValueError].  Python's [\d] also
    matches decimal digits outside ASCII; the function below is the parser
    on ASCII strings and returns [None] on every other string, so a
    statement drawn from a rejection assumes an ASCII string. *)

Definition is_digit (c : ascii) : bool :=
  let n := nat_of_ascii c in (48 <=? n)%nat && (n <=? 57)%nat.

Definition digit_val (c : ascii) : Z := Z.of_nat (nat_of_ascii c) - 48.

Fixpoint split_on (sep : ascii) (s : string) : list string :=
  match s with
  | EmptyString => [EmptyString]
  | String c s' =>
      if Ascii.eqb c sep then EmptyString :: split_on sep s'
      else match split_on sep s' with
           | [] => [String c EmptyString]
           | w :: ws => String c w :: ws
           end
  end.

Definition parse_Y (s : string) : option Z :=
  match s with
  | String a (String b (String c (String d EmptyString))) =>
      if is_digit a && is_digit b && is_digit c && is_digit d
      then Some (1000 * digit_val a + 100 * digit_val b
                 + 10 * digit_val c + digit_val d)
      else None
  | _ => None
  end.

Definition parse_m (s : string) : option Z :=
  match s with
  | String a (String b EmptyString) =>
      if is_digit a && is_digit b then
        let v := 10 * digit_val a + digit_val b in
        if (1 <=? v) && (v <=? 12) then Some v else None
      else None
  | String a EmptyString =>
      if is_digit a && (1 <=? digit_val a) then Some (digit_val a) else None
  | _ => None
  end.

Definition parse_d (s : string) : option Z :=
  match s with
  | String a (String b EmptyString) =>
      if is_digit a && is_digit b then
        let v := 10 * digit_val a + digit_val b in
        if (1 <=? v) && (v <=? 31) then Some v else None
      else if Ascii.eqb a " "%char && is_digit b && (1 <=? digit_val b)
      then Some (digit_val b)
      else None
  | String a EmptyString =>
      if is_digit a && (1 <=? digit_val a) then Some (digit_val a) else None
  | _ => None
  end.

Definition is_leap (y : Z) : bool :=
  ((y mod 4 =? 0) && negb (y mod 100 =? 0)) || (y mod 400 =? 0).

Definition days_in_month (y m : Z) : Z :=
  if m =? 2 then (if is_leap y then 29 else 28)
  else if (m =? 4) || (m =? 6) || (m =? 9) || (m =? 11) then 30
  else 31.

Definition strptime_ymd (s : string) : option datetime :=
  match split_on "-"%char s with
  | [sy; sm; sd] =>
      match parse_Y sy, parse_m sm, parse_d sd with
      | Some y, Some m, Some d =>
          if (1 <=? y) && (d <=? days_in_month y m)
          then Some {| year := y; month := m; day := d;
                       hour := 0; minute := 0; second := 0; microsecond := 0 |}
          else None
      | _, _, _ => None
      end
  | _ => None
  end.

(** ** Documents *)

(** The value of an [_id] field or of a reference to one: an [ObjectId]
    generated by the store, or a string supplied from outside (a path
    parameter, the [train] field of a booking). *)
Inductive bson_id := ObjectId (n : nat) | StrId (s : string).

#[global] Instance bson_id_eq_dec : EqDecision bson_id.
Proof. solve_decision. Defined.

#[global] Instance datetime_eq_dec : EqDecision datetime.
Proof. solve_decision. Defined.

Record TrainClass := mk_class {
  cls_type : string;
  totalSeats : Z;
  fare : float
}.

(** A document of the [trains] collection, with the keys the queries of
    the program use ([from], [to], [trainNumber], [departureTime],
    [classes], [_id]). *)
Record TrainDoc := mk_train {
  t_id : bson_id;
  trainNumber : string;
  t_name : string;
  t_from : string;
  t_to : string;
  departureTime : datetime;
  arrivalTime : datetime;
  classes : list TrainClass
}.

Record Passenger := mk_passenger { p_name : string; seatNumber : string }.

(** The request model [Booking]; [booking_data.dict()] has these keys. *)
Record Booking := mk_booking {
  pnr : string;
  train : string;
  user : string;
  journeyDate : date;
  status : string;
  passengers : list Passenger;
  class_type : string;
  totalFare : float
}.

(** A document of the [bookings] collection with the fields of the
    model: [train] a string, [journeyDate] the midnight of a day. *)
Record BookingDoc := mk_doc { b_id : bson_id; b_doc : Booking }.

Definition set_pnr (p : string) (b : Booking) : Booking :=
  {| pnr := p; train := train b; user := user b; journeyDate := journeyDate b;
     status := status b; passengers := passengers b;
     class_type := class_type b; totalFare := totalFare b |}.

Definition set_status (s : string) (b : Booking) : Booking :=
  {| pnr := pnr b; train := train b; user := user b;
     journeyDate := journeyDate b; status := s; passengers := passengers b;
     class_type := class_type b; totalFare := totalFare b |}.

(** ** The world: store and random generator *)

(** [random]: the module-level generator, as the sequence of its future
    raw outcomes and the number already consumed. *)
Record RNG := mk_rng { rng_stream : nat -> nat; rng_pos : nat }.

Record World := mk_world {
  trains : list TrainDoc;
  bookings : list BookingDoc;
  random : RNG
}.

Inductive exn :=
| HTTPException (status_code : Z) (detail : string)
| ValueError
| DuplicateKeyError
| InvalidDocument.

Inductive outcome (A : Type) :=
| Return (a : A)
| Raise (e : exn).
Arguments Return {A} a.
Arguments Raise {A} e.

(** Computations that read and write the world and may raise. *)
Definition M (A : Type) : Type := World -> outcome A * World.

#[global] Instance M_ret : MRet M := fun A a w => (Return a, w).
#[global] Instance M_bind : MBind M := fun A B f m w =>
  match m w with
  | (Return a, w') => f a w'
  | (Raise e, w') => (Raise e, w')
  end.

Definition raise {A} (e : exn) : M A := fun w => (Raise e, w).
Definition get_trains : M (list TrainDoc) := fun w => (Return (trains w), w).
Definition get_bookings : M (list BookingDoc) :=
  fun w => (Return (bookings w), w).
Definition put_bookings (l : list BookingDoc) : M unit := fun w =>
  (Return tt, {| trains := trains w; bookings := l; random := random w |}).

(** ** Store primitives *)

Definition str_eqb (a b : string) : bool := bool_decide (a = b).

(** An [ObjectId] no stored booking has. *)
Definition fresh_oid (l : list BookingDoc) : nat :=
  S (foldr (fun d acc =>
              match b_id d with ObjectId n => Nat.max n acc | StrId _ => acc end)
           0%nat l).

(** The values in the dict of a request model, as far as the BSON encoder
    tells them apart. *)
Inductive py_value :=
| PyStr (s : string)
| PyFloat (x : float)
| PyDate (d : date)
| PyDateTime (t : datetime)
| PyDictList (l : list (list (string * string))).

(** The encoder has a codec for [str], [float], [datetime.datetime], lists
    and dicts; it has none for [datetime.date]. *)
Definition bson_encodable (v : py_value) : bool :=
  match v with
  | PyDate _ => false
  | _ => true
  end.

(** [booking_data.dict()]: the fields of the model under their names;
    [journeyDate] stays the [date] it is in the model. *)
Definition booking_dict (b : Booking) : list (string * py_value) :=
  [("pnr", PyStr (pnr b));
   ("train", PyStr (train b));
   ("user", PyStr (user b));
   ("journeyDate", PyDate (journeyDate b));
   ("status", PyStr (status b));
   ("passengers",
    PyDictList (map (fun p => [("name", p_name p);
                               ("seatNumber", seatNumber p)])
                    (passengers b)));
   ("class_type", PyStr (class_type b));
   ("totalFare", PyFloat (totalFare b))].

(** [bookings.insert_one(booking_data.dict())]: the dict is encoded first,
    which raises [InvalidDocument] when a value has no codec.  An encoded
    document goes to the store, where the unique index on [pnr] rejects a
    duplicate; otherwise it is appended under a new [ObjectId], which is
    returned as [inserted_id]. *)
Definition insert_one (doc : Booking) : M bson_id :=
  if forallb (fun kv => bson_encodable (snd kv)) (booking_dict doc)
  then
    l ← get_bookings;
    if existsb (fun d => str_eqb (pnr (b_doc d)) (pnr doc)) l
    then raise DuplicateKeyError
    else
      let oid := ObjectId (fresh_oid l) in
      _ ← put_bookings (l ++ [{| b_id := oid; b_doc := doc |}]);
      mret oid
  else raise InvalidDocument.

(** [update_one({"_id": id}, {"$set": {"status": s}})] on a list of
    documents: the first document with that [_id] is the only one touched,
    and it counts as modified only if its status was not [s] already. *)
Fixpoint set_status_first (id : bson_id) (s : string) (l : list BookingDoc)
  : list BookingDoc * nat :=
  match l with
  | [] => ([], 0%nat)
  | d :: l' =>
      if bool_decide (b_id d = id) then
        if str_eqb (status (b_doc d)) s then (d :: l', 0%nat)
        else ({| b_id := b_id d; b_doc := set_status s (b_doc d) |} :: l', 1%nat)
      else
        let '(l'', n) := set_status_first id s l' in (d :: l'', n)
  end.

(** The call above on the [bookings] collection; the result is
    [modified_count]. *)
Definition update_one_status (id : bson_id) (s : string) : M nat :=
  l ← get_bookings;
  let '(l', n) := set_status_first id s l in
  _ ← put_bookings l';
  mret n.

(** ** [random.choices] and the PNR alphabet *)

Definition ascii_uppercase : list ascii :=
  list_ascii_of_string "ABCDEFGHIJKLMNOPQRSTUVWXYZ".
Definition digits : list ascii := list_ascii_of_string "0123456789".

(** [random.choices(population, k=k)]: [k] independent selections, each an
    index into [population]. *)
Definition choices (r : RNG) (population : list ascii) (k : nat) : list ascii :=
  map (fun i =>
         nth (rng_stream r (rng_pos r + i) mod length population)%nat
             population "000"%char)
      (seq 0 k).

Definition advance (r : RNG) (k : nat) : RNG :=
  {| rng_stream := rng_stream r; rng_pos := (rng_pos r + k)%nat |}.

Definition random_choices (population : list ascii) (k : nat) : M (list ascii) :=
  fun w =>
    (Return (choices (random w) population k),
     {| trains := trains w; bookings := bookings w;
        random := advance (random w) k |}).

Definition join (l : list ascii) : string := string_of_list_ascii l.

(** ** Services *)

Definition parse_date (date : string) : M datetime :=
  match strptime_ymd date with
  | Some t => mret t
  | None => raise ValueError
  end.

Definition search_query (from_station to_station : string) (date_obj : datetime)
    (t : TrainDoc) : bool :=
  str_eqb (t_from t) from_station
  && str_eqb (t_to t) to_station
  && dt_ge (departureTime t) date_obj
  && dt_lt (departureTime t) (replace_hms date_obj 23 59 59).

Definition search_trains (from_station to_station date : string)
  : M (list TrainDoc) :=
  date_obj ← parse_date date;
  l ← get_trains;
  mret (List.filter (search_query from_station to_station date_obj) l).

Definition availability_query (train_id : bson_id) (date_obj : datetime)
    (d : BookingDoc) : bool :=
  bool_decide (StrId (train (b_doc d)) = train_id)
  && bool_decide (datetime_of_date (journeyDate (b_doc d)) = date_obj)
  && str_eqb (status (b_doc d)) "confirmed".

Definition check_seat_availability (train_number date : string)
  : M (option (gmap string Z)) :=
  date_obj ← parse_date date;
  ts ← get_trains;
  match List.find (fun t => str_eqb (trainNumber t) train_number) ts with
  | None => mret None
  | Some tr =>
      bs ← get_bookings;
      let n := length (List.filter (availability_query (t_id tr) date_obj) bs) in
      mret (Some (foldl (fun availability class_info =>
                           <[cls_type class_info :=
                               totalSeats class_info - Z.of_nat n]> availability)
                        ∅ (classes tr)))
  end.

Definition create_booking (booking_data : Booking) : M (option BookingDoc) :=
  code ← random_choices (ascii_uppercase ++ digits) 10;
  let booking_data := set_pnr (join code) booking_data in
  inserted_id ← insert_one booking_data;
  l ← get_bookings;
  mret (List.find (fun d => bool_decide (b_id d = inserted_id)) l).

Definition get_pnr_status (p : string) : M (option BookingDoc) :=
  l ← get_bookings;
  mret (List.find (fun d => str_eqb (pnr (b_doc d)) p) l).

Definition cancel_booking (booking_id : bson_id) : M bool :=
  modified_count ← update_one_status booking_id "cancelled";
  mret (0 <? modified_count)%nat.

(** ** Routes *)

Definition search_trains_route (from_station to_station date : string)
  : M (list TrainDoc) :=
  ts ← search_trains from_station to_station date;
  match ts with
  | [] => raise (HTTPException 404 "No trains found")
  | _ => mret ts
  end.

Definition check_availability (train_number date : string)
  : M (gmap string Z) :=
  availability ← check_seat_availability train_number date;
  match availability with
  | None => raise (HTTPException 404 "Train not found or no availability")
  | Some a =>
      if bool_decide (a = ∅)
      then raise (HTTPException 404 "Train not found or no availability")
      else mret a
  end.

Definition book_ticket (booking : Booking) : M BookingDoc :=
  created_booking ← create_booking booking;
  match created_booking with
  | None => raise (HTTPException 400 "Booking failed")
  | Some d => mret d
  end.

Definition get_booking_status (pnr_number : string) : M BookingDoc :=
  st ← get_pnr_status pnr_number;
  match st with
  | None => raise (HTTPException 404 "Booking not found")
  | Some d => mret d
  end.

Definition cancel_ticket (booking_id : string) : M string :=
  cancelled ← cancel_booking (StrId booking_id);
  match cancelled with
  | true => mret "Booking cancelled successfully"
  | false =>
      raise (HTTPException 404 "Booking not found or already cancelled")
  end.

(** ** Requests and runs *)

(** The requests of the public interface that the properties below are
    about, and the world after serving one. *)
Inductive request :=
| SearchTrains (from_station to_station date : string)
| CheckAvailability (train_number date : string)
| BookTicket (booking : Booking)
| GetBookingStatus (pnr_number : string)
| CancelTicket (booking_id : string).

Definition serve (r : request) (w : World) : World :=
  match r with
  | SearchTrains f t d => snd (search_trains_route f t d w)
  | CheckAvailability n d => snd (check_availability n d w)
  | BookTicket b => snd (book_ticket b w)
  | GetBookingStatus p => snd (get_booking_status p w)
  | CancelTicket i => snd (cancel_ticket i w)
  end.

Definition run (rs : list request) (w : World) : World :=
  foldl (fun w r => serve r w) w rs.

(** ** Derived quantities used in the statements *)

(** The PNR the next [create_booking] call will generate. *)
Definition next_pnr (w : World) : string :=
  join (choices (random w) (ascii_uppercase ++ digits) 10).

Definition pnr_stored (p : string) (l : list BookingDoc) : bool :=
  existsb (fun d => str_eqb (pnr (b_doc d)) p) l.

Definition pnrs (l : list BookingDoc) : list string :=
  map (fun d => pnr (b_doc d)) l.

Definition with_bookings (w : World) (l : list BookingDoc) (r : RNG) : World :=
  {| trains := trains w; bookings := l; random := r |}.

(** A booking counts for the train with [_id] [train_id] on the day of
    [date_obj] exactly as in the query of [check_seat_availability]; the
    statements below add the class. *)
Definition on_key (train_id : bson_id) (date_obj : datetime) (cls : string)
    (b : Booking) : bool :=
  bool_decide (StrId (train b) = train_id)
  && bool_decide (datetime_of_date (journeyDate b) = date_obj)
  && str_eqb (status b) "confirmed"
  && str_eqb (class_type b) cls.

(** Seats ([len(passengers)]) of the confirmed bookings of one
    (train, journey date, class). *)
Definition confirmedSeats (train_id : bson_id) (date_obj : datetime)
    (cls : string) (l : list BookingDoc) : Z :=
  foldr (fun d acc =>
           if on_key train_id date_obj cls (b_doc d)
           then Z.of_nat (length (passengers (b_doc d))) + acc else acc)
        0 l.

(** The number [check_seat_availability] subtracts: the stored documents
    matching its query. *)
Definition confirmed_documents (train_id : bson_id) (date_obj : datetime)
    (l : list BookingDoc) : nat :=
  length (List.filter (availability_query train_id date_obj) l).

(** The class entry that decides the value stored under key [c]: the dict
    is filled in list order, so a later entry of the same type wins. *)
Definition class_named (c : string) (cs : list TrainClass) : option TrainClass :=
  last (List.filter (fun ci => str_eqb (cls_type ci) c) cs).


(** ** Example data *)

Definition T100 : TrainDoc :=
  {| t_id := StrId "T100"; trainNumber := "T100"; t_name := "Express";
     t_from := "MAS"; t_to := "SBC";
     departureTime := mk_datetime 2024 5 1 8 0 0 0;
     arrivalTime := mk_datetime 2024 5 1 14 0 0 0;
     classes := [mk_class "SL" 2 100%float; mk_class "AC" 1 300%float] |}.

Definition may_1 : datetime := mk_datetime 2024 5 1 0 0 0 0.

(** A generator whose n-th code is ten times the n-th symbol of the
    alphabet: AAAAAAAAAA, BBBBBBBBBB, ... *)
Definition rng_by_tens : RNG :=
  {| rng_stream := fun i => (i / 10)%nat; rng_pos := 0 |}.

(** A generator whose first code is ZZZZZZZZZZ and which then goes on as
    [rng_by_tens]: BBBBBBBBBB, CCCCCCCCCC, ... *)
Definition rng_colliding : RNG :=
  {| rng_stream := fun i => if (i <? 10)%nat then 25%nat else (i / 10)%nat;
     rng_pos := 0 |}.

Definition world0 : World :=
  {| trains := [T100]; bookings := []; random := rng_by_tens |}.

(** A request for [n] seats on T100 on 2024-05-01. *)
Definition seats_request (n : nat) (cls st : string) : Booking :=
  {| pnr := "client-pnr"; train := "T100"; user := "u1";
     journeyDate := mk_date 2024 5 1; status := st;
     passengers := repeat (mk_passenger "P" "S1") n;
     class_type := cls; totalFare := 0%float |}.

(** A booking document held by the store under a string [_id], with
    status [st]: one passenger in SL on T100 on 2024-05-01. *)
Definition foreign_booking (st : string) : BookingDoc :=
  {| b_id := StrId "b1";
     b_doc := {| pnr := "ZZZZZZZZZZ"; train := "T100"; user := "u2";
                 journeyDate := mk_date 2024 5 1; status := st;
                 passengers := [mk_passenger "Q" "S9"];
                 class_type := "SL"; totalFare := 100%float |} |}.

Definition world_foreign (st : string) : World :=
  {| trains := [T100]; bookings := [foreign_booking st];
     random := rng_by_tens |}.

(** A second stored booking: two passengers in SL on T100 on 2024-05-01. *)
Definition second_booking (st : string) : BookingDoc :=
  {| b_id := ObjectId 5;
     b_doc := {| pnr := "YYYYYYYYYY"; train := "T100"; user := "u3";
                 journeyDate := mk_date 2024 5 1; status := st;
                 passengers := [mk_passenger "R" "S7"; mk_passenger "S" "S8"];
                 class_type := "SL"; totalFare := 200%float |} |}.

(** A store with two confirmed SL bookings on T100 for 2024-05-01 and none
    in AC. *)
Definition world_two_confirmed : World :=
  {| trains := [T100];
     bookings := [foreign_booking "confirmed"; second_booking "confirmed"];
     random := rng_by_tens |}.

(** The store of [world_foreign] with a generator whose next code is the
    stored PNR. *)
Definition world_collision : World :=
  {| trains := [T100]; bookings := [foreign_booking "confirmed"];
     random := rng_colliding |}.

(** The stored document [d] with its status set to [s]. *)
Definition with_status (s : string) (d : BookingDoc) : BookingDoc :=
  {| b_id := b_id d; b_doc := set_status s (b_doc d) |}.

Definition find_by_id (id : bson_id) (l : list BookingDoc) : option BookingDoc :=
  List.find (fun d => bool_decide (b_id d = id)) l.

(** The validation the specification asks of a booking request before
    anything is stored (the program has no counterpart of it): the
    passenger list is not empty, the class exists on the train the booking
    refers to, and the journey date is not before the day of [now]. *)
Definition spec_validation (now : datetime) (w : World) (b : Booking) : bool :=
  match passengers b with [] => false | _ :: _ => true end
  && existsb (fun tr =>
                (bool_decide (StrId (train b) = t_id tr)
                 || str_eqb (trainNumber tr) (train b))
                && existsb (fun ci => str_eqb (cls_type ci) (class_type b))
                           (classes tr))
             (trains w)
  && dt_ge (datetime_of_date (journeyDate b))
           (mk_datetime (year now) (month now) (day now) 0 0 0 0).

(** A request that fails each of the three checks on 2024-05-01. *)
Definition invalid_request : Booking :=
  {| pnr := ""; train := "T100"; user := "u1";
     journeyDate := mk_date 2000 1 1; status := "confirmed";
     passengers := []; class_type := "XX"; totalFare := 0%float |}.


(** A code point below 128 in every position. *)
Definition is_ascii (s : string) : bool :=
  forallb (fun c => (nat_of_ascii c <? 128)%nat) (list_ascii_of_string s).

(** Three trains from MAS to SBC on 2024-05-01, stored with the evening
    train first; T300 leaves half a second after 23:59:59. *)
Definition T200 : TrainDoc :=
  {| t_id := StrId "T200"; trainNumber := "T200"; t_name := "Evening Mail";
     t_from := "MAS"; t_to := "SBC";
     departureTime := mk_datetime 2024 5 1 18 30 0 0;
     arrivalTime := mk_datetime 2024 5 2 0 30 0 0;
     classes := [mk_class "SL" 10 100%float] |}.

Definition T300 : TrainDoc :=
  {| t_id := StrId "T300"; trainNumber := "T300"; t_name := "Night Mail";
     t_from := "MAS"; t_to := "SBC";
     departureTime := mk_datetime 2024 5 1 23 59 59 500000;
     arrivalTime := mk_datetime 2024 5 2 6 0 0 0;
     classes := [mk_class "SL" 10 100%float] |}.

Definition world_search : World :=
  {| trains := [T200; T100; T300]; bookings := []; random := rng_by_tens |}.

(** Ascending order of departure time: no train of the list leaves before
    one that precedes it. *)
Definition ascending_departure (l : list TrainDoc) : Prop :=
  forall (i j : nat) (a b : TrainDoc),
    (i < j)%nat -> l !! i = Some a -> l !! j = Some b ->
    dt_lt (departureTime b) (departureTime a) = false.

(** 23:59:59 of the day of [t]. *)
Definition last_second (t : datetime) : datetime :=
  mk_datetime (year t) (month t) (day t) 23 59 59 0.

(** ** Users *)

(** The [users] collection is touched by [create_user], [get_user] and
    their two routes only, and by nothing else; it is a world of its own
    here.  The request model [User] arrives validated. *)
Record User := mk_user {
  u_name : string;
  email : string;
  phoneNumber : string
}.

Record UserDoc := mk_user_doc { u_id : bson_id; u_doc : User }.

(** Computations on the [users] collection. *)
Definition UM (A : Type) : Type := list UserDoc -> outcome A * list UserDoc.

#[global] Instance UM_ret : MRet UM := fun A a us => (Return a, us).
#[global] Instance UM_bind : MBind UM := fun A B f m us =>
  match m us with
  | (Return a, us') => f a us'
  | (Raise e, us') => (Raise e, us')
  end.

Definition raise_u {A} (e : exn) : UM A := fun us => (Raise e, us).
Definition get_users : UM (list UserDoc) := fun us => (Return us, us).

Definition fresh_user_oid (l : list UserDoc) : nat :=
  S (foldr (fun d acc =>
              match u_id d with ObjectId n => Nat.max n acc | StrId _ => acc end)
           0%nat l).

(** [users.insert_one(doc)] for a dict without [_id], under the unique
    index on [email]. *)
Definition insert_one_user (doc : User) : UM bson_id := fun us =>
  if existsb (fun d => str_eqb (email (u_doc d)) (email doc)) us
  then (Raise DuplicateKeyError, us)
  else
    let oid := ObjectId (fresh_user_oid us) in
    (Return oid, us ++ [{| u_id := oid; u_doc := doc |}]).

Definition create_user (user_data : User) : UM (option UserDoc) :=
  inserted_id ← insert_one_user user_data;
  us ← get_users;
  mret (List.find (fun d => bool_decide (u_id d = inserted_id)) us).

Definition get_user (user_id : bson_id) : UM (option UserDoc) :=
  us ← get_users;
  mret (List.find (fun d => bool_decide (u_id d = user_id)) us).

Definition register_user (user : User) : UM UserDoc :=
  created_user ← create_user user;
  match created_user with
  | None => raise_u (HTTPException 400 "User registration failed")
  | Some d => mret d
  end.

Definition get_user_info (user_id : string) : UM UserDoc :=
  user ← get_user (StrId user_id);
  match user with
  | None => raise_u (HTTPException 404 "User not found")
  | Some d => mret d
  end.

Inductive user_request :=
| RegisterUser (user : User)
| GetUserInfo (user_id : string).

Definition serve_user (r : user_request) (us : list UserDoc) : list UserDoc :=
  match r with
  | RegisterUser u => snd (register_user u us)
  | GetUserInfo i => snd (get_user_info i us)
  end.

Definition run_users (rs : list user_request) (us : list UserDoc)
  : list UserDoc :=
  foldl (fun us r => serve_user r us) us rs.

(** ** Further derived quantities *)

(** How a stored booking may differ from an earlier state of itself: in
    its status only, and then only by having become ["cancelled"]. *)
Definition evolves (old new : BookingDoc) : Prop :=
  b_id new = b_id old /\
  b_doc new = set_status (status (b_doc new)) (b_doc old) /\
  (status (b_doc new) = status (b_doc old)
   \/ status (b_doc new) = "cancelled").

Definition is_object_id (i : bson_id) : bool :=
  match i with ObjectId _ => true | StrId _ => false end.

(** The number of booking requests in a run. *)
Definition booking_requests (rs : list request) : nat :=
  length (List.filter (fun r => match r with BookTicket _ => true
                                        | _ => false end) rs).

(** The availability query without its reference to a world. *)
Definition counts_for (train_id : bson_id) (date_obj : datetime)
    (b : Booking) : bool :=
  bool_decide (StrId (train b) = train_id)
  && bool_decide (datetime_of_date (journeyDate b) = date_obj)
  && str_eqb (status b) "confirmed".

Definition alice : User :=
  {| u_name := "Alice"; email := "alice@example.org";
     phoneNumber := "555-0100" |}.

Definition T400 : TrainDoc :=
  {| t_id := ObjectId 7; trainNumber := "T400"; t_name := "Local";
     t_from := "MAS"; t_to := "AJJ";
     departureTime := mk_datetime 2024 5 1 6 0 0 0;
     arrivalTime := mk_datetime 2024 5 1 7 0 0 0;
     classes := [] |}.

Definition world_two_trains : World :=
  {| trains := [T100; T400]; bookings := []; random := rng_by_tens |}.


(** * Properties *)

(** ** The store primitives *)

#[local] Arguments choices : simpl never.
#[local] Arguments join : simpl never.
#[local] Arguments fresh_oid : simpl never.
#[local] Arguments strptime_ymd : simpl never.
#[local] Arguments ascii_uppercase : simpl never.
#[local] Arguments digits : simpl never.

(** Unfold the monad's plumbing and the store accessors. *)
Ltac run_M :=
  cbv [mbind M_bind mret M_ret raise get_bookings get_trains put_bookings
       random_choices insert_one update_one_status parse_date].

Lemma str_eqb_eq (a b : string) : str_eqb a b = true <-> a = b.
Proof. unfold str_eqb. apply bool_decide_eq_true. Qed.

Lemma str_eqb_refl (a : string) : str_eqb a a = true.
Proof. by apply str_eqb_eq. Qed.

(** The dict of a booking always holds a [date], so the encoder always
    fails: [insert_one] raises before the store is asked anything. *)
Lemma insert_one_raises (doc : Booking) (w : World) :
  insert_one doc w = (Raise InvalidDocument, w).
Proof. reflexivity. Qed.

(** [create_booking] in one equation: the code is generated, the insert
    raises, and the lookup of the inserted document is never reached. *)
Lemma create_booking_eq (b : Booking) (w : World) :
  create_booking b w =
  (Raise InvalidDocument,
   with_bookings w (bookings w) (advance (random w) 10)).
Proof.
  unfold create_booking, with_bookings.
  cbv [mbind M_bind random_choices]. by rewrite insert_one_raises.
Qed.

Lemma book_ticket_eq (b : Booking) (w : World) :
  book_ticket b w =
  (Raise InvalidDocument,
   with_bookings w (bookings w) (advance (random w) 10)).
Proof.
  unfold book_ticket. cbv [mbind M_bind]. by rewrite create_booking_eq.
Qed.

Lemma cancel_booking_eq (id : bson_id) (w : World) :
  cancel_booking id w =
  (Return (0 <? snd (set_status_first id "cancelled" (bookings w)))%nat,
   with_bookings w (fst (set_status_first id "cancelled" (bookings w)))
     (random w)).
Proof.
  unfold cancel_booking. run_M.
  by destruct (set_status_first _ _ _).
Qed.

Lemma search_trains_route_world f t d (w : World) :
  snd (search_trains_route f t d w) = w.
Proof.
  unfold search_trains_route, search_trains. run_M.
  destruct (strptime_ymd d); [|done]. by destruct (List.filter _ _).
Qed.

Lemma check_availability_world n d (w : World) :
  snd (check_availability n d w) = w.
Proof.
  unfold check_availability, check_seat_availability. run_M.
  destruct (strptime_ymd d); [|done]. destruct (List.find _ _); [|done].
  by destruct (bool_decide _).
Qed.

Lemma get_booking_status_world p (w : World) :
  snd (get_booking_status p w) = w.
Proof.
  unfold get_booking_status, get_pnr_status. run_M.
  by destruct (List.find _ _).
Qed.

Lemma serve_trains (r : request) (w : World) : trains (serve r w) = trains w.
Proof.
  destruct r as [f t d|n d|b|p|i]; cbn [serve].
  - by rewrite search_trains_route_world.
  - by rewrite check_availability_world.
  - by rewrite book_ticket_eq.
  - by rewrite get_booking_status_world.
  - unfold cancel_ticket. run_M. rewrite cancel_booking_eq.
    by destruct (0 <? _)%nat.
Qed.

Lemma run_trains (rs : list request) (w : World) :
  trains (run rs w) = trains w.
Proof.
  unfold run. revert w. induction rs as [|r rs IH]; intros w; [done|].
  simpl. by rewrite IH, serve_trains.
Qed.

Lemma serve_random (r : request) (w : World) :
  random (serve r w)
  = match r with
    | BookTicket _ => advance (random w) 10
    | _ => random w
    end.
Proof.
  destruct r as [f t d|n d|b|p|i]; cbn [serve].
  - by rewrite search_trains_route_world.
  - by rewrite check_availability_world.
  - by rewrite book_ticket_eq.
  - by rewrite get_booking_status_world.
  - unfold cancel_ticket. run_M. rewrite cancel_booking_eq.
    by destruct (0 <? _)%nat.
Qed.

Lemma serve_bookings (r : request) (w : World) :
  bookings (serve r w)
  = match r with
    | CancelTicket i =>
        fst (set_status_first (StrId i) "cancelled" (bookings w))
    | _ => bookings w
    end.
Proof.
  destruct r as [f t d|n d|b|p|i]; cbn [serve].
  - by rewrite search_trains_route_world.
  - by rewrite check_availability_world.
  - by rewrite book_ticket_eq.
  - by rewrite get_booking_status_world.
  - unfold cancel_ticket. run_M. rewrite cancel_booking_eq.
    by destruct (0 <? _)%nat.
Qed.

Example strptime_ok :
  strptime_ymd "2024-05-01" = Some (mk_datetime 2024 5 1 0 0 0 0).
Proof. reflexivity. Qed.

Example strptime_bad_month : strptime_ymd "2024-13-01" = None.
Proof. reflexivity. Qed.

Example strptime_bad_day : strptime_ymd "2023-02-29" = None.
Proof. reflexivity. Qed.

(** ** Booking and capacity *)

Lemma confirmedSeats_app tid dobj cls (l1 l2 : list BookingDoc) :
  confirmedSeats tid dobj cls (l1 ++ l2)
  = confirmedSeats tid dobj cls l1 + confirmedSeats tid dobj cls l2.
Proof.
  unfold confirmedSeats. induction l1 as [|d l1 IH]; simpl; [lia|].
  destruct (on_key _ _ _ _); lia.
Qed.








(** ** Availability *)

Lemma availability_lookup (n : Z) (cs : list TrainClass) (m : gmap string Z)
    (c : string) :
  foldl (fun availability class_info =>
           <[cls_type class_info := totalSeats class_info - n]> availability)
        m cs !! c
  = match class_named c cs with
    | Some ci => Some (totalSeats ci - n)
    | None => m !! c
    end.
Proof.
  unfold class_named. revert m.
  induction cs as [|x cs IH]; intros m; [done|].
  cbn [foldl List.filter]. rewrite IH.
  destruct (str_eqb (cls_type x) c) eqn:E.
  - apply str_eqb_eq in E. rewrite last_cons.
    destruct (last _); [done|]. by rewrite E, lookup_insert_eq.
  - destruct (last _); [done|]. apply lookup_insert_ne.
    intros Heq. apply str_eqb_eq in Heq. congruence.
Qed.

Lemma class_named_unique (cs : list TrainClass) (ci : TrainClass) :
  NoDup (map cls_type cs) -> In ci cs -> class_named (cls_type ci) cs = Some ci.
Proof.
  unfold class_named. induction cs as [|x cs IH]; [intros _ []|].
  intros Hnd Hin. apply NoDup_cons in Hnd as [Hx Hnd]. cbn [List.filter].
  destruct Hin as [->|Hin].
  - rewrite str_eqb_refl, last_cons.
    replace (List.filter _ cs) with (@nil TrainClass); [done|].
    symmetry. clear IH Hnd. induction cs as [|y cs IH]; [done|].
    cbn [List.filter]. destruct (str_eqb (cls_type y) (cls_type ci)) eqn:E.
    + apply str_eqb_eq in E. exfalso. apply Hx. rewrite <- E. simpl. left.
    + apply IH. intros H. apply Hx. simpl. by right.
  - destruct (str_eqb (cls_type x) (cls_type ci)) eqn:E.
    + apply str_eqb_eq in E. exfalso. apply Hx. rewrite E.
      apply list_elem_of_In, in_map, Hin.
    + by apply IH.
Qed.

Lemma class_named_last (cs : list TrainClass) (x : TrainClass) :
  class_named (cls_type x) (cs ++ [x]) = Some x.
Proof.
  unfold class_named. rewrite List.filter_app. cbn [List.filter].
  rewrite str_eqb_refl. apply last_snoc.
Qed.

Lemma check_seat_availability_eq (train_number date : string)
    (date_obj : datetime) (w : World) :
  strptime_ymd date = Some date_obj ->
  check_seat_availability train_number date w =
  (Return
     (match List.find (fun t => str_eqb (trainNumber t) train_number)
                      (trains w) with
      | None => None
      | Some tr =>
          Some (foldl (fun availability class_info =>
                         <[cls_type class_info :=
                             totalSeats class_info
                             - Z.of_nat (confirmed_documents (t_id tr) date_obj
                                           (bookings w))]> availability)
                      ∅ (classes tr))
      end), w).
Proof.
  intros Hd. unfold check_seat_availability. run_M. rewrite Hd.
  by destruct (List.find _ _).
Qed.

(** C2, as stated, fails: in a store with two confirmed SL bookings on
    T100 for 2024-05-01 and none in AC, the availability reported for AC
    (one seat in all, no seat confirmed) is -1: bookings of SL lowered it,
    and it is negative. *)
Lemma C2_availability_counterexample :
  let w := world_two_confirmed in
  confirmedSeats (StrId "T100") may_1 "AC" (bookings w) = 0 /\
  class_named "AC" (classes T100) = Some (mk_class "AC" 1 300%float) /\
  exists av,
    check_availability "T100" "2024-05-01" w = (Return av, w) /\
    av !! "AC" = Some (-1) /\
    av !! "AC" <> Some (1 - 0).
Proof.
  cbv zeta. split; [vm_compute; reflexivity|]. split; [reflexivity|].
  eexists. split; [vm_compute; reflexivity|].
  split; [vm_compute; reflexivity|]. vm_compute. discriminate.
Qed.

(** C2, amended: for a known train and a well-formed date,
    [check_seat_availability] returns, for each class of the train, that
    class's [totalSeats] minus one and the same number: the count of stored
    booking documents that refer to the train's [_id], have that journey
    date and have status ["confirmed"].  The count takes one per document,
    whatever the class and the number of passengers of the booking, and
    nothing keeps the difference from being negative.  The store is not
    changed. *)
Theorem C2_availability_subtracts_document_count
    (train_number date : string) (date_obj : datetime) (tr : TrainDoc)
    (w : World) :
  strptime_ymd date = Some date_obj ->
  List.find (fun t => str_eqb (trainNumber t) train_number) (trains w)
    = Some tr ->
  let n := confirmed_documents (t_id tr) date_obj (bookings w) in
  exists av,
    check_seat_availability train_number date w = (Return (Some av), w) /\
    (forall c,
       av !! c = (fun ci => totalSeats ci - Z.of_nat n)
                   <$> class_named c (classes tr)) /\
    (NoDup (map cls_type (classes tr)) ->
     forall ci, In ci (classes tr) ->
       av !! cls_type ci = Some (totalSeats ci - Z.of_nat n)) /\
    (forall d l,
       confirmed_documents (t_id tr) date_obj (l ++ [d])
       = (confirmed_documents (t_id tr) date_obj l
          + if bool_decide (StrId (train (b_doc d)) = t_id tr)
               && bool_decide (datetime_of_date (journeyDate (b_doc d))
                               = date_obj)
               && str_eqb (status (b_doc d)) "confirmed"
            then 1 else 0)%nat) /\
    (classes tr <> [] ->
     check_availability train_number date w = (Return av, w)).
Proof.
  intros Hd Hf n. eexists. split.
  { rewrite (check_seat_availability_eq _ _ _ _ Hd), Hf. reflexivity. }
  assert (Hl : forall c,
    foldl (fun availability class_info =>
             <[cls_type class_info := totalSeats class_info - Z.of_nat n]>
               availability) (∅ : gmap string Z) (classes tr) !! c
    = (fun ci => totalSeats ci - Z.of_nat n) <$> class_named c (classes tr)).
  { intros c. rewrite availability_lookup, lookup_empty.
    by destruct (class_named _ _). }
  split; [exact Hl|]. split; [|split].
  - intros Hnd ci Hin. rewrite Hl, (class_named_unique _ _ Hnd Hin). done.
  - intros d l. unfold confirmed_documents.
    rewrite List.filter_app, length_app. f_equal. cbn [List.filter].
    unfold availability_query. by destruct (_ && _).
  - intros Hne. unfold check_availability. run_M.
    rewrite (check_seat_availability_eq _ _ _ _ Hd), Hf.
    rewrite bool_decide_eq_false_2; [done|].
    intros He. destruct (classes tr) as [|x cs] using rev_ind; [done|].
    specialize (Hl (cls_type x)). fold n in He. rewrite He in Hl.
    rewrite lookup_empty, class_named_last in Hl. discriminate.
Qed.

Lemma C2_availability_subtracts_document_count_witness :
  exists av,
    check_seat_availability "T100" "2024-05-01" (world_foreign "confirmed")
    = (Return (Some av), world_foreign "confirmed") /\
    av !! "SL" = Some 1 /\ av !! "AC" = Some 0.
Proof.
  destruct (C2_availability_subtracts_document_count "T100" "2024-05-01"
              may_1 T100 (world_foreign "confirmed") eq_refl eq_refl)
    as (av & Hav & Hl & _).
  exists av. split; [exact Hav|]. rewrite !Hl. split; reflexivity.
Defined.

(** ** PNR codes *)

Lemma choices_length (r : RNG) (population : list ascii) (k : nat) :
  length (choices r population k) = k.
Proof. unfold choices. by rewrite length_map, length_seq. Qed.

Lemma choices_from_population (r : RNG) (population : list ascii) (k : nat) :
  population <> [] ->
  Forall (fun c => In c population) (choices r population k).
Proof.
  intros Hne. unfold choices. apply Forall_forall. intros c Hc.
  apply list_elem_of_In, in_map_iff in Hc as (i & <- & _).
  apply nth_In. apply Nat.mod_upper_bound.
  destruct population; [done|]. simpl. lia.
Qed.

Lemma join_length (l : list ascii) : String.length (join l) = length l.
Proof. unfold join. induction l as [|c l IH]; simpl; [done|]. by rewrite IH. Qed.

Lemma next_pnr_format (w : World) :
  String.length (next_pnr w) = 10%nat /\
  Forall (fun c => In c (ascii_uppercase ++ digits))
         (list_ascii_of_string (next_pnr w)).
Proof.
  unfold next_pnr. split.
  - by rewrite join_length, choices_length.
  - unfold join. rewrite list_ascii_of_string_of_list_ascii.
    by apply choices_from_population.
Qed.

Lemma set_status_first_pnrs (id : bson_id) (s : string) (l : list BookingDoc) :
  pnrs (fst (set_status_first id s l)) = pnrs l.
Proof.
  unfold pnrs. induction l as [|d l IH]; simpl; [done|].
  destruct (bool_decide _).
  - by destruct (str_eqb _ _).
  - destruct (set_status_first id s l) as [l' n]. simpl in *. by rewrite IH.
Qed.

Lemma serve_pnrs_NoDup (r : request) (w : World) :
  NoDup (pnrs (bookings w)) -> NoDup (pnrs (bookings (serve r w))).
Proof.
  intros Hnd. rewrite serve_bookings.
  destruct r; try done. by rewrite set_status_first_pnrs.
Qed.

Lemma run_pnrs_NoDup (rs : list request) (w : World) :
  NoDup (pnrs (bookings w)) -> NoDup (pnrs (bookings (run rs w))).
Proof.
  unfold run. revert w. induction rs as [|r rs IH]; intros w Hnd; [done|].
  simpl. apply IH. by apply serve_pnrs_NoDup.
Qed.

(** C3, as stated, fails on the retry: the generator yields the PNR of
    a stored booking; [create_booking] raises and stores nothing, having
    drawn one code only, although the code after that one is free. *)
Lemma C3_no_retry_counterexample :
  let b := seats_request 1 "SL" "confirmed" in
  let r := create_booking b world_collision in
  pnr_stored (next_pnr world_collision) (bookings world_collision) = true /\
  fst r = Raise InvalidDocument /\
  bookings (snd r) = bookings world_collision /\
  rng_pos (random (snd r)) = (rng_pos (random world_collision) + 10)%nat /\
  pnr_stored (next_pnr (snd r)) (bookings (snd r)) = false.
Proof. cbv zeta. repeat split; vm_compute; reflexivity. Qed.

(** C3, amended: [create_booking] generates one code per call, of ten
    characters, each an uppercase letter or a digit, and never a second
    one: the generator advances by ten selections in every call, and a
    call whose code is the PNR of a stored booking raises and leaves the
    bookings as they were.  The stored PNRs stay distinct over any run of
    requests. *)
Theorem C3_pnr_format_and_uniqueness (rs : list request) (b : Booking)
    (w : World) :
  NoDup (pnrs (bookings w)) ->
  NoDup (pnrs (bookings (run rs w))) /\
  (String.length (next_pnr w) = 10%nat /\
   Forall (fun c => In c (ascii_uppercase ++ digits))
          (list_ascii_of_string (next_pnr w))) /\
  random (snd (create_booking b w)) = advance (random w) 10 /\
  (pnr_stored (next_pnr w) (bookings w) = true ->
   (exists e, fst (create_booking b w) = Raise e) /\
   bookings (snd (create_booking b w)) = bookings w).
Proof.
  intros Hnd. split; [by apply run_pnrs_NoDup|].
  split; [apply next_pnr_format|].
  rewrite create_booking_eq. split; [done|]. intros _. split; [|done].
  by eexists.
Qed.

Lemma C3_pnr_format_and_uniqueness_witness :
  let b := seats_request 1 "SL" "confirmed" in
  NoDup (pnrs (bookings world_collision)) /\
  NoDup (pnrs (bookings (run [BookTicket b; CancelTicket "b1";
                              BookTicket b] world_collision))) /\
  String.length (next_pnr world_collision) = 10%nat /\
  bookings (snd (create_booking b world_collision))
  = bookings world_collision.
Proof.
  cbv zeta.
  assert (Hnd : NoDup (pnrs (bookings world_collision))).
  { apply NoDup_singleton. }
  split; [exact Hnd|].
  destruct (C3_pnr_format_and_uniqueness
              [BookTicket (seats_request 1 "SL" "confirmed");
               CancelTicket "b1";
               BookTicket (seats_request 1 "SL" "confirmed")]
              (seats_request 1 "SL" "confirmed") world_collision Hnd)
    as (Hrun & [Hlen _] & _ & Hc).
  split; [exact Hrun|]. split; [exact Hlen|].
  apply Hc. reflexivity.
Defined.

(** ** Cancellation *)

Lemma with_bookings_id (w : World) : with_bookings w (bookings w) (random w) = w.
Proof. by destruct w. Qed.

Lemma set_status_first_missing (id : bson_id) (s : string)
    (l : list BookingDoc) :
  find_by_id id l = None -> set_status_first id s l = (l, 0%nat).
Proof.
  unfold find_by_id. induction l as [|x l IH]; simpl; [done|].
  destruct (bool_decide _); [done|]. intros H. by rewrite (IH H).
Qed.

Lemma set_status_first_same (id : bson_id) (s : string)
    (l : list BookingDoc) (d : BookingDoc) :
  find_by_id id l = Some d -> status (b_doc d) = s ->
  set_status_first id s l = (l, 0%nat).
Proof.
  unfold find_by_id. induction l as [|x l IH]; simpl; [done|].
  destruct (bool_decide _).
  - intros [= ->] Hs. by rewrite Hs, str_eqb_refl.
  - intros H Hs. by rewrite (IH H Hs).
Qed.

Lemma set_status_first_changed (id : bson_id) (s : string)
    (l : list BookingDoc) (d : BookingDoc) :
  find_by_id id l = Some d -> status (b_doc d) <> s ->
  exists l1 l2,
    l = l1 ++ d :: l2 /\
    find_by_id id l1 = None /\
    b_id d = id /\
    set_status_first id s l = (l1 ++ with_status s d :: l2, 1%nat).
Proof.
  unfold find_by_id. induction l as [|x l IH]; simpl; [done|].
  destruct (bool_decide (b_id x = id)) eqn:E.
  - intros [= ->] Hs. exists [], l. apply bool_decide_eq_true in E.
    assert (str_eqb (status (b_doc d)) s = false) as ->.
    { apply not_true_is_false. by rewrite str_eqb_eq. }
    done.
  - intros H Hs. destruct (IH H Hs) as (l1 & l2 & -> & Hn & Hid & Heq).
    exists (x :: l1), l2. rewrite Heq. simpl. by rewrite E.
Qed.

Lemma find_by_id_app_hit (id : bson_id) (l1 l2 : list BookingDoc)
    (d : BookingDoc) :
  find_by_id id l1 = None -> b_id d = id ->
  find_by_id id (l1 ++ d :: l2) = Some d.
Proof.
  unfold find_by_id. intros Hn Hid.
  induction l1 as [|x l1 IH]; simpl in *.
  - by rewrite bool_decide_eq_true_2.
  - destruct (bool_decide _); [done|]. by apply IH.
Qed.

Lemma cancel_booking_missing (id : bson_id) (w : World) :
  find_by_id id (bookings w) = None ->
  cancel_booking id w = (Return false, w).
Proof.
  intros H. rewrite cancel_booking_eq, (set_status_first_missing _ _ _ H).
  cbn [fst snd]. by rewrite with_bookings_id.
Qed.

Lemma cancel_booking_already (id : bson_id) (w : World) (d : BookingDoc) :
  find_by_id id (bookings w) = Some d ->
  status (b_doc d) = "cancelled" ->
  cancel_booking id w = (Return false, w).
Proof.
  intros H Hs. rewrite cancel_booking_eq, (set_status_first_same _ _ _ _ H Hs).
  cbn [fst snd]. by rewrite with_bookings_id.
Qed.

(** C4, as stated, fails: a booking stored with status ["pending"] is
    cancelled by [cancel_booking], and one stored with status ["failed"] is
    cancelled through the route; both calls report success. *)
Lemma C4_cancel_non_confirmed_counterexample :
  (fst (cancel_booking (StrId "b1") (world_foreign "pending")) = Return true /\
   bookings (snd (cancel_booking (StrId "b1") (world_foreign "pending")))
     = [with_status "cancelled" (foreign_booking "pending")]) /\
  (fst (cancel_ticket "b1" (world_foreign "failed"))
     = Return "Booking cancelled successfully" /\
   bookings (snd (cancel_ticket "b1" (world_foreign "failed")))
     = [with_status "cancelled" (foreign_booking "failed")]).
Proof. repeat split; vm_compute; reflexivity. Qed.

(** C4, amended: [cancel_booking] sets the status to ["cancelled"] whenever
    the first document with the given [_id] exists and its status is
    anything but ["cancelled"] (confirmed or not), and returns [True]; no
    other document and no other field changes, and the confirmed seats of a
    key drop by the booking's [len(passengers)] exactly when the booking
    was a confirmed one of that key.  When no document has the [_id], or
    its status is ["cancelled"] already, the call returns [False] and
    changes nothing; a cancel repeated after a successful one is such a
    call. *)
Theorem C4_cancel_from_any_other_status (id : bson_id) (w : World) :
  (find_by_id id (bookings w) = None ->
   cancel_booking id w = (Return false, w)) /\
  (forall d, find_by_id id (bookings w) = Some d ->
     status (b_doc d) = "cancelled" ->
     cancel_booking id w = (Return false, w)) /\
  (forall d, find_by_id id (bookings w) = Some d ->
     status (b_doc d) <> "cancelled" ->
     exists l1 l2,
       bookings w = l1 ++ d :: l2 /\
       let w' := with_bookings w (l1 ++ with_status "cancelled" d :: l2)
                   (random w) in
       cancel_booking id w = (Return true, w') /\
       cancel_booking id w' = (Return false, w') /\
       forall tid dobj cls,
         confirmedSeats tid dobj cls (bookings w')
         = confirmedSeats tid dobj cls (bookings w)
           - (if on_key tid dobj cls (b_doc d)
              then Z.of_nat (length (passengers (b_doc d))) else 0)).
Proof.
  split; [apply cancel_booking_missing|].
  split; [apply cancel_booking_already|].
  intros d Hf Hs.
  destruct (set_status_first_changed _ _ _ _ Hf Hs)
    as (l1 & l2 & Hl & Hn & Hid & Heq).
  exists l1, l2. split; [exact Hl|]. cbv zeta. split; [|split].
  - by rewrite cancel_booking_eq, Heq.
  - apply cancel_booking_already with (d := with_status "cancelled" d).
    + cbn [bookings with_bookings]. by apply find_by_id_app_hit.
    + reflexivity.
  - intros tid dobj cls. cbn [bookings with_bookings]. rewrite Hl.
    rewrite !confirmedSeats_app. f_equal.
    unfold confirmedSeats. cbn [foldr with_status b_doc].
    replace (on_key tid dobj cls (set_status "cancelled" (b_doc d)))
      with false.
    + destruct (on_key _ _ _ _); lia.
    + unfold on_key. cbn [set_status status train journeyDate class_type].
      replace (str_eqb "cancelled" "confirmed") with false by reflexivity.
      by rewrite andb_false_r.
Qed.

Lemma C4_cancel_from_any_other_status_witness :
  exists w',
    cancel_booking (StrId "b1") (world_foreign "confirmed")
      = (Return true, w') /\
    cancel_booking (StrId "b1") w' = (Return false, w') /\
    confirmedSeats (StrId "T100") may_1 "SL" (bookings w') = 0.
Proof.
  destruct (C4_cancel_from_any_other_status (StrId "b1")
              (world_foreign "confirmed")) as (_ & _ & H).
  destruct (H (foreign_booking "confirmed") eq_refl)
    as (l1 & l2 & Hl & Hc & Hr & Hs); [discriminate|].
  eexists. split; [exact Hc|]. split; [exact Hr|].
  rewrite Hs. reflexivity.
Defined.

(** C9: [cancel_booking] returns [False], and leaves the store as it was,
    both when no booking has the given id and when the booking with that id
    is already cancelled; the route answers both with the same 404
    [HTTPException]. *)
Theorem C9_cancel_missing_and_repeated_alike (id : bson_id) (w : World) :
  (find_by_id id (bookings w) = None \/
   exists d, find_by_id id (bookings w) = Some d /\
             status (b_doc d) = "cancelled") ->
  cancel_booking id w = (Return false, w) /\
  forall booking_id, id = StrId booking_id ->
    cancel_ticket booking_id w
    = (Raise (HTTPException 404 "Booking not found or already cancelled"), w).
Proof.
  intros H.
  assert (Hc : cancel_booking id w = (Return false, w)).
  { destruct H as [H|(d & H & Hs)].
    - by apply cancel_booking_missing.
    - by apply cancel_booking_already with (d := d). }
  split; [exact Hc|]. intros booking_id ->.
  unfold cancel_ticket. run_M. by rewrite Hc.
Qed.

Lemma C9_cancel_missing_and_repeated_alike_witness :
  cancel_ticket "b1" world0
  = (Raise (HTTPException 404 "Booking not found or already cancelled"),
     world0) /\
  cancel_ticket "b1" (world_foreign "cancelled")
  = (Raise (HTTPException 404 "Booking not found or already cancelled"),
     world_foreign "cancelled").
Proof.
  split.
  - apply (C9_cancel_missing_and_repeated_alike (StrId "b1") world0);
      [left; reflexivity | reflexivity].
  - apply (C9_cancel_missing_and_repeated_alike (StrId "b1")
             (world_foreign "cancelled")); [|reflexivity].
    right. exists (foreign_booking "cancelled"). split; reflexivity.
Defined.

(** ** What a booking request does *)

(** C5: no booking call succeeds.  For every request and every store,
    [book_ticket] raises [InvalidDocument] out of [insert_one]; nothing is
    persisted and nothing is returned, so there is no booking whose status
    or fare could be inspected. *)
Theorem C5_booking_call_never_succeeds (b : Booking) (w : World) :
  book_ticket b w
  = (Raise InvalidDocument,
     with_bookings w (bookings w) (advance (random w) 10)) /\
  (forall d w', book_ticket b w <> (Return d, w')) /\
  bookings (snd (book_ticket b w)) = bookings w.
Proof. rewrite book_ticket_eq. repeat split. discriminate. Qed.

(** C6, as stated, fails: on 2024-05-01 a request with no passengers, a
    class T100 does not have and a journey date in 2000 is not rejected as
    a validation error.  It meets the very outcome that a request passing
    all three checks meets, and that outcome is neither an [HTTPException]
    nor a [ValueError]. *)
Lemma C6_no_validation_counterexample :
  let now := mk_datetime 2024 5 1 12 0 0 0 in
  let valid := seats_request 1 "SL" "confirmed" in
  spec_validation now world0 invalid_request = false /\
  spec_validation now world0 valid = true /\
  book_ticket invalid_request world0 = book_ticket valid world0 /\
  (forall code detail,
     fst (book_ticket invalid_request world0)
     <> Raise (HTTPException code detail)) /\
  fst (book_ticket invalid_request world0) <> Raise ValueError.
Proof.
  cbv zeta. split; [reflexivity|]. split; [reflexivity|].
  rewrite !book_ticket_eq. repeat split; discriminate.
Qed.

(** C6, amended: booking performs no validation.  A request that the
    checks of the specification would reject (no passengers, a class the
    train does not have, a past journey date) is not told apart from any
    other request: whether the call returns or raises, and with which
    exception, is the same for both; the exception is never an
    [HTTPException], and the PNR is generated (ten selections of the
    generator) before anything else. *)
Theorem C6_invalid_requests_are_not_told_apart (now : datetime)
    (b b' : Booking) (w : World) :
  spec_validation now w b = false ->
  (forall e, fst (book_ticket b w) = Raise e ->
             fst (book_ticket b' w) = Raise e) /\
  ((exists d, fst (book_ticket b w) = Return d)
   <-> (exists d', fst (book_ticket b' w) = Return d')) /\
  (forall code detail,
     fst (book_ticket b w) <> Raise (HTTPException code detail)) /\
  random (snd (book_ticket b w)) = advance (random w) 10.
Proof.
  intros _. rewrite !book_ticket_eq. cbn [fst snd random with_bookings].
  repeat split; try done; intros [d [=]].
Qed.

Lemma C6_invalid_requests_are_not_told_apart_witness :
  spec_validation (mk_datetime 2024 5 1 12 0 0 0) world0 invalid_request
    = false /\
  forall e,
    fst (book_ticket invalid_request world0) = Raise e ->
    fst (book_ticket (seats_request 1 "SL" "confirmed") world0) = Raise e.
Proof.
  split; [reflexivity|].
  destruct (C6_invalid_requests_are_not_told_apart
              (mk_datetime 2024 5 1 12 0 0 0) invalid_request
              (seats_request 1 "SL" "confirmed") world0 eq_refl) as [H _].
  exact H.
Defined.

(** C8: [create_booking] persists nothing.  It overwrites [pnr] with the
    generated code, whatever the client sent (the call does the same for
    every client value), and then raises [InvalidDocument] out of
    [insert_one]: the bookings are as they were and the lookup of the
    inserted document is not reached. *)
Theorem C8_create_booking_persists_nothing (b : Booking) (w : World) :
  create_booking b w
  = (Raise InvalidDocument,
     with_bookings w (bookings w) (advance (random w) 10)) /\
  bookings (snd (create_booking b w)) = bookings w /\
  (forall p, create_booking (set_pnr p b) w = create_booking b w).
Proof.
  rewrite create_booking_eq. split; [done|]. split; [done|].
  intros p. by rewrite create_booking_eq.
Qed.

(** ** Search *)

Lemma strptime_ymd_midnight (s : string) (t : datetime) :
  strptime_ymd s = Some t ->
  hour t = 0 /\ minute t = 0 /\ second t = 0 /\ microsecond t = 0.
Proof.
  unfold strptime_ymd. intros H.
  repeat case_match; try discriminate. by injection H as <-.
Qed.

Lemma replace_hms_midnight (s : string) (t : datetime) :
  strptime_ymd s = Some t -> replace_hms t 23 59 59 = last_second t.
Proof.
  intros H. apply strptime_ymd_midnight in H as (_ & _ & _ & Hu).
  unfold replace_hms, last_second. by rewrite Hu.
Qed.

(** Case analysis on every comparison of two field values. *)
Ltac compare_fields :=
  repeat match goal with
         | H : context [Z.compare ?a ?b] |- _ =>
             destruct (Z.compare_spec a b); simpl in H;
             try discriminate; subst
         | |- context [Z.compare ?a ?b] =>
             destruct (Z.compare_spec a b); simpl;
             try discriminate; subst
         end.

Lemma window_same_day (dep t : datetime) :
  dt_ge dep t = true -> dt_lt dep (last_second t) = true ->
  year dep = year t /\ month dep = month t /\ day dep = day t.
Proof.
  unfold dt_ge, dt_lt, dt_compare, dt_fields, last_second.
  destruct dep, t. cbn [lex_compare year month day hour minute second
                         microsecond].
  intros H1 H2. compare_fields; try done; lia.
Qed.

Lemma final_second_not_before (y m d us : Z) :
  0 <= us ->
  dt_ge (mk_datetime y m d 23 59 59 us) (mk_datetime y m d 23 59 59 0) = true.
Proof.
  intros Hus. unfold dt_ge, dt_lt, dt_compare, dt_fields.
  cbn [lex_compare year month day hour minute second microsecond].
  rewrite !Z.compare_refl. cbn.
  destruct (Z.compare_spec us 0); try done; lia.
Qed.

Lemma search_trains_eq (f t date : string) (date_obj : datetime) (w : World) :
  strptime_ymd date = Some date_obj ->
  search_trains f t date w
  = (Return (List.filter (search_query f t date_obj) (trains w)), w).
Proof. intros Hd. unfold search_trains. run_M. by rewrite Hd. Qed.

Lemma search_query_true (f t date : string) (date_obj : datetime)
    (tr : TrainDoc) :
  strptime_ymd date = Some date_obj ->
  search_query f t date_obj tr = true <->
  t_from tr = f /\ t_to tr = t /\
  dt_ge (departureTime tr) date_obj = true /\
  dt_lt (departureTime tr) (last_second date_obj) = true.
Proof.
  intros Hd. unfold search_query.
  rewrite (replace_hms_midnight _ _ Hd), !andb_true_iff, !str_eqb_eq. tauto.
Qed.

Lemma filter_sublist {A} (p : A -> bool) (l : list A) :
  sublist (List.filter p l) l.
Proof.
  induction l as [|x l IH]; simpl; [constructor|].
  destruct (p x); by constructor.
Qed.

(** C7, as stated, fails on the order: the store holds the 18:30 train
    before the 08:00 train, and the search returns them in that order. *)
Lemma C7_search_order_counterexample :
  search_trains_route "MAS" "SBC" "2024-05-01" world_search
    = (Return [T200; T100], world_search) /\
  dt_lt (departureTime T100) (departureTime T200) = true /\
  ~ ascending_departure [T200; T100].
Proof.
  split; [vm_compute; reflexivity|]. split; [reflexivity|].
  intros H. specialize (H 0%nat 1%nat T200 T100).
  assert (dt_lt (departureTime T100) (departureTime T200) = false) as E.
  { apply H; [lia | reflexivity | reflexivity]. }
  vm_compute in E. discriminate.
Qed.

(** C7, amended: for a well-formed date, [search_trains] returns stored
    trains of the given route that depart on the given day, and among them
    every one that departs before 23:59:59; it returns them in the order
    of the store, without sorting.  The route answers 404 when the list is
    empty and returns the list otherwise. *)
Theorem C7_search_returns_matches_in_store_order
    (f t date : string) (date_obj : datetime) (w : World) :
  strptime_ymd date = Some date_obj ->
  exists l,
    search_trains f t date w = (Return l, w) /\
    sublist l (trains w) /\
    (forall tr, In tr l ->
       In tr (trains w) /\ t_from tr = f /\ t_to tr = t /\
       year (departureTime tr) = year date_obj /\
       month (departureTime tr) = month date_obj /\
       day (departureTime tr) = day date_obj) /\
    (forall tr, In tr (trains w) -> t_from tr = f -> t_to tr = t ->
       dt_ge (departureTime tr) date_obj = true ->
       dt_lt (departureTime tr) (last_second date_obj) = true ->
       In tr l) /\
    search_trains_route f t date w
    = match l with
      | [] => (Raise (HTTPException 404 "No trains found"), w)
      | _ :: _ => (Return l, w)
      end.
Proof.
  intros Hd. eexists. split; [by apply search_trains_eq|].
  split; [apply filter_sublist|]. split; [|split].
  - intros tr Hin. apply filter_In in Hin as [Hin Hq].
    apply (search_query_true _ _ _ _ _ Hd) in Hq as (Hf & Ht & Hge & Hlt).
    pose proof (window_same_day _ _ Hge Hlt). tauto.
  - intros tr Hin Hf Ht Hge Hlt. apply filter_In. split; [done|].
    by apply (search_query_true _ _ _ _ _ Hd).
  - unfold search_trains_route. run_M.
    rewrite (search_trains_eq _ _ _ _ _ Hd).
    by destruct (List.filter _ _).
Qed.

Lemma C7_search_returns_matches_in_store_order_witness :
  exists l,
    search_trains "MAS" "SBC" "2024-05-01" world_search
      = (Return l, world_search) /\
    sublist l [T200; T100; T300] /\ In T100 l.
Proof.
  destruct (C7_search_returns_matches_in_store_order
              "MAS" "SBC" "2024-05-01" may_1 world_search eq_refl)
    as (l & Hs & Hsub & _ & Hin & _).
  exists l. split; [exact Hs|]. split; [exact Hsub|].
  apply Hin; [simpl; tauto | reflexivity ..].
Defined.

(** C10: for a well-formed date, [search_trains] returns exactly the
    stored trains of the route whose departure time is at or after 00:00:00
    of that date and before 23:59:59 of that date; a train that departs at
    or after 23:59:59, in particular anywhere in the final second of the
    day, is not returned. *)
Theorem C10_search_window_excludes_final_second
    (f t date : string) (date_obj : datetime) (w : World) :
  strptime_ymd date = Some date_obj ->
  exists l,
    search_trains f t date w = (Return l, w) /\
    date_obj = mk_datetime (year date_obj) (month date_obj) (day date_obj)
                 0 0 0 0 /\
    (forall tr, In tr l <->
       In tr (trains w) /\ t_from tr = f /\ t_to tr = t /\
       dt_ge (departureTime tr) date_obj = true /\
       dt_lt (departureTime tr) (last_second date_obj) = true) /\
    (forall tr, dt_ge (departureTime tr) (last_second date_obj) = true ->
       ~ In tr l) /\
    (forall tr us, 0 <= us ->
       departureTime tr
       = mk_datetime (year date_obj) (month date_obj) (day date_obj)
           23 59 59 us ->
       ~ In tr l).
Proof.
  intros Hd.
  assert (Hiff : forall tr,
    In tr (List.filter (search_query f t date_obj) (trains w)) <->
    In tr (trains w) /\ t_from tr = f /\ t_to tr = t /\
    dt_ge (departureTime tr) date_obj = true /\
    dt_lt (departureTime tr) (last_second date_obj) = true).
  { intros tr. by rewrite filter_In, (search_query_true _ _ _ _ _ Hd). }
  assert (Hout : forall tr,
    dt_ge (departureTime tr) (last_second date_obj) = true ->
    ~ In tr (List.filter (search_query f t date_obj) (trains w))).
  { intros tr Hge Hin. apply Hiff in Hin as (_ & _ & _ & _ & Hlt).
    unfold dt_ge in Hge. rewrite Hlt in Hge. discriminate. }
  eexists. split; [by apply search_trains_eq|]. split; [|split; [|split]].
  - apply strptime_ymd_midnight in Hd as (? & ? & ? & ?).
    destruct date_obj. simpl in *. congruence.
  - exact Hiff.
  - exact Hout.
  - intros tr us Hus Hdep. apply Hout. rewrite Hdep.
    by apply final_second_not_before.
Qed.

Lemma C10_search_window_excludes_final_second_witness :
  exists l,
    search_trains "MAS" "SBC" "2024-05-01" world_search
      = (Return l, world_search) /\
    In T300 (trains world_search) /\ ~ In T300 l.
Proof.
  destruct (C10_search_window_excludes_final_second
              "MAS" "SBC" "2024-05-01" may_1 world_search eq_refl)
    as (l & Hs & _ & _ & _ & Hout).
  exists l. split; [exact Hs|]. split; [simpl; tauto|].
  apply (Hout T300 500000); [lia | reflexivity].
Defined.

(** * Further properties of the program *)

(** ** Reading routes *)

(** X1: the three reading routes (train search, availability, booking by
    PNR) leave the store and the generator exactly as they were, whatever
    they return or raise. *)
Theorem X1_reading_routes_change_nothing
    (f t d n p : string) (w : World) :
  snd (search_trains_route f t d w) = w /\
  snd (check_availability n d w) = w /\
  snd (get_booking_status p w) = w.
Proof.
  split; [apply search_trains_route_world|].
  split; [apply check_availability_world | apply get_booking_status_world].
Qed.

(** X2: an ASCII date string that [strptime] rejects makes the search
    route and the availability route raise [ValueError], not a 404; the
    availability route does so before it looks the train up, so also for an
    unknown train number. *)
Theorem X2_malformed_date_raises_ValueError
    (f t n date : string) (w : World) :
  is_ascii date = true ->
  strptime_ymd date = None ->
  search_trains_route f t date w = (Raise ValueError, w) /\
  check_availability n date w = (Raise ValueError, w).
Proof.
  intros _ Hd. unfold search_trains_route, search_trains, check_availability,
    check_seat_availability. run_M. by rewrite Hd.
Qed.

Lemma X2_malformed_date_raises_ValueError_witness :
  search_trains_route "MAS" "SBC" "01-05-2024" world0
    = (Raise ValueError, world0) /\
  check_availability "no such train" "2024-02-30" world0
    = (Raise ValueError, world0).
Proof.
  split.
  - apply (X2_malformed_date_raises_ValueError
             "MAS" "SBC" "T100" "01-05-2024" world0 eq_refl eq_refl).
  - apply (X2_malformed_date_raises_ValueError
             "MAS" "SBC" "no such train" "2024-02-30" world0 eq_refl eq_refl).
Defined.

(** X3: for a well-formed date the search route answers 404 exactly when
    no stored train satisfies the query, and a list it returns is never
    empty. *)
Theorem X3_search_route_404_iff_no_match
    (f t date : string) (date_obj : datetime) (w : World) :
  strptime_ymd date = Some date_obj ->
  (search_trains_route f t date w
     = (Raise (HTTPException 404 "No trains found"), w)
   <-> forall tr, In tr (trains w) -> search_query f t date_obj tr = false) /\
  (forall l w', search_trains_route f t date w = (Return l, w') ->
     l <> [] /\ w' = w /\
     forall tr, In tr l -> In tr (trains w) /\ t_from tr = f /\ t_to tr = t).
Proof.
  intros Hd. unfold search_trains_route. run_M.
  rewrite (search_trains_eq _ _ _ _ _ Hd).
  destruct (List.filter _ _) as [|x l] eqn:E.
  - split; [|intros ? ? [=]]. split; [|done]. intros _ tr Hin.
    destruct (search_query f t date_obj tr) eqn:Hq; [|done].
    assert (In tr (List.filter (search_query f t date_obj) (trains w)))
      as Hf by (apply filter_In; done).
    rewrite E in Hf. destruct Hf.
  - split.
    + split; [intros [=]|]. intros H.
      assert (In x (List.filter (search_query f t date_obj) (trains w)))
        as Hf by (rewrite E; by left).
      apply filter_In in Hf as [Hin Hq]. rewrite (H x Hin) in Hq.
      discriminate.
    + intros l' w' [= <- <-]. split; [done|]. split; [done|].
      intros tr Hin. rewrite <- E in Hin. apply filter_In in Hin as [Hin Hq].
      apply (search_query_true _ _ _ _ _ Hd) in Hq. tauto.
Qed.

Lemma X3_search_route_404_iff_no_match_witness :
  search_trains_route "MAS" "SBC" "2024-05-02" world_search
    = (Raise (HTTPException 404 "No trains found"), world_search).
Proof.
  destruct (X3_search_route_404_iff_no_match "MAS" "SBC" "2024-05-02"
              (mk_datetime 2024 5 2 0 0 0 0) world_search eq_refl)
    as [[_ H] _].
  apply H. intros tr Hin. simpl in Hin.
  destruct Hin as [<-|[<-|[<-|[]]]]; reflexivity.
Defined.

Lemma availability_not_empty (n : Z) (cs : list TrainClass) :
  cs <> [] ->
  foldl (fun availability class_info =>
           <[cls_type class_info := totalSeats class_info - n]> availability)
        (∅ : gmap string Z) cs <> ∅.
Proof.
  intros Hne He. destruct cs as [|x cs] using rev_ind; [done|].
  pose proof (availability_lookup n (cs ++ [x]) ∅ (cls_type x)) as Hl.
  rewrite He, lookup_empty, class_named_last in Hl. discriminate.
Qed.

(** X4: for a well-formed date the availability route answers 404 exactly
    in two cases: no stored train has the train number, or the train has an
    empty list of classes.  The two cases carry the same detail. *)
Theorem X4_availability_404_iff_unknown_or_classless
    (n date : string) (date_obj : datetime) (w : World) :
  strptime_ymd date = Some date_obj ->
  check_availability n date w
    = (Raise (HTTPException 404 "Train not found or no availability"), w)
  <-> (List.find (fun t => str_eqb (trainNumber t) n) (trains w) = None
       \/ exists tr,
            List.find (fun t => str_eqb (trainNumber t) n) (trains w)
              = Some tr /\ classes tr = []).
Proof.
  intros Hd. unfold check_availability. run_M.
  rewrite (check_seat_availability_eq _ _ _ _ Hd).
  destruct (List.find _ _) as [tr|]; [|split; [by left | done]].
  destruct (classes tr) as [|c cs] eqn:Ec.
  - split; [|done]. intros _. right. by exists tr.
  - rewrite bool_decide_eq_false_2 by (by apply availability_not_empty).
    split; [intros [=]|]. intros [[=]|(tr' & [= <-] & Hc)]. congruence.
Qed.

Lemma X4_availability_404_iff_unknown_or_classless_witness :
  check_availability "T999" "2024-05-01" world_two_trains
    = (Raise (HTTPException 404 "Train not found or no availability"),
       world_two_trains) /\
  check_availability "T400" "2024-05-01" world_two_trains
    = (Raise (HTTPException 404 "Train not found or no availability"),
       world_two_trains).
Proof.
  split.
  - apply (X4_availability_404_iff_unknown_or_classless
             "T999" "2024-05-01" may_1 world_two_trains eq_refl).
    left. reflexivity.
  - apply (X4_availability_404_iff_unknown_or_classless
             "T400" "2024-05-01" may_1 world_two_trains eq_refl).
    right. exists T400. split; reflexivity.
Defined.

(** ** Availability against cancellations *)

Lemma confirmed_documents_app tid dobj (l1 l2 : list BookingDoc) :
  confirmed_documents tid dobj (l1 ++ l2)
  = (confirmed_documents tid dobj l1 + confirmed_documents tid dobj l2)%nat.
Proof.
  unfold confirmed_documents. by rewrite List.filter_app, length_app.
Qed.

Lemma confirmed_documents_cancelled tid dobj (d : BookingDoc) :
  availability_query tid dobj (with_status "cancelled" d) = false.
Proof.
  unfold availability_query, with_status. cbn [b_doc set_status status].
  replace (str_eqb "cancelled" "confirmed") with false by reflexivity.
  apply andb_false_r.
Qed.

(** X7: cancelling and availability compose as follows.  After a call of
    [cancel_booking] that returns [True], the availability reported for a
    train and date is, in every class alike, one higher than before if the
    cancelled booking referred to the train's [_id], had that journey date
    and had status ["confirmed"], and is unchanged otherwise. *)
Theorem X7_cancel_raises_availability_by_one
    (id : bson_id) (d : BookingDoc) (n date : string) (date_obj : datetime)
    (tr : TrainDoc) (w : World) :
  strptime_ymd date = Some date_obj ->
  List.find (fun t => str_eqb (trainNumber t) n) (trains w) = Some tr ->
  find_by_id id (bookings w) = Some d ->
  status (b_doc d) <> "cancelled" ->
  exists av av' w',
    check_seat_availability n date w = (Return (Some av), w) /\
    cancel_booking id w = (Return true, w') /\
    check_seat_availability n date w' = (Return (Some av'), w') /\
    forall c,
      av' !! c
      = (fun v => v + (if counts_for (t_id tr) date_obj (b_doc d)
                       then 1 else 0))
          <$> av !! c.
Proof.
  intros Hd Hf Hfind Hs.
  destruct (set_status_first_changed _ _ _ _ Hfind Hs)
    as (l1 & l2 & Hl & _ & _ & Heq).
  eexists _, _, _. split.
  { rewrite (check_seat_availability_eq _ _ _ _ Hd), Hf. reflexivity. }
  split; [by rewrite cancel_booking_eq, Heq|]. split.
  { rewrite (check_seat_availability_eq _ _ _ _ Hd).
    cbn [trains bookings with_bookings fst]. rewrite Hf. reflexivity. }
  intros c. cbn [bookings with_bookings fst]. rewrite Hl.
  change (l1 ++ with_status "cancelled" d :: l2)
    with (l1 ++ [with_status "cancelled" d] ++ l2).
  change (l1 ++ d :: l2) with (l1 ++ [d] ++ l2).
  rewrite !confirmed_documents_app.
  assert (confirmed_documents (t_id tr) date_obj [with_status "cancelled" d]
          = 0%nat) as ->.
  { unfold confirmed_documents. cbn [List.filter].
    by rewrite confirmed_documents_cancelled. }
  assert (Z.of_nat (confirmed_documents (t_id tr) date_obj [d])
          = if counts_for (t_id tr) date_obj (b_doc d) then 1 else 0) as Hk.
  { unfold confirmed_documents. cbn [List.filter].
    change (availability_query (t_id tr) date_obj d)
      with (counts_for (t_id tr) date_obj (b_doc d)).
    by destruct (counts_for _ _ _). }
  rewrite <- Hk.
  rewrite !availability_lookup, !lookup_empty.
  destruct (class_named c (classes tr)); [|done]. simpl. f_equal. lia.
Qed.

Lemma X7_cancel_raises_availability_by_one_witness :
  let w := world_foreign "confirmed" in
  exists av av' w',
    check_seat_availability "T100" "2024-05-01" w = (Return (Some av), w) /\
    cancel_booking (StrId "b1") w = (Return true, w') /\
    check_seat_availability "T100" "2024-05-01" w' = (Return (Some av'), w') /\
    av' !! "AC" = (fun v => v + 1) <$> av !! "AC".
Proof.
  cbv zeta.
  destruct (X7_cancel_raises_availability_by_one
              (StrId "b1") (foreign_booking "confirmed")
              "T100" "2024-05-01" may_1 T100 (world_foreign "confirmed")
              eq_refl eq_refl eq_refl)
    as (av & av' & w' & Hav & Hc & Hav' & Hl); [discriminate|].
  exists av, av', w'. repeat split; try assumption. apply Hl.
Defined.

(** ** What booking never does *)

(** X8: [create_booking] never returns [None] and the route never
    answers 400 "Booking failed": every booking request ends in
    [insert_one] with [InvalidDocument], the store unchanged and the
    generator ten selections on. *)
Theorem X8_booking_never_answers_400 (b : Booking) (w : World) :
  (forall w', create_booking b w <> (Return None, w')) /\
  (forall code detail w',
     book_ticket b w <> (Raise (HTTPException code detail), w')) /\
  book_ticket b w
  = (Raise InvalidDocument,
     with_bookings w (bookings w) (advance (random w) 10)).
Proof.
  rewrite create_booking_eq, book_ticket_eq.
  split; [discriminate|]. split; [discriminate|]. done.
Qed.

(** X9: no request changes the [trains] collection, so a search gives the
    same answer after any run of requests as before it. *)
Theorem X9_requests_never_change_trains
    (rs : list request) (f t date : string) (w : World) :
  trains (run rs w) = trains w /\
  fst (search_trains_route f t date (run rs w))
  = fst (search_trains_route f t date w).
Proof.
  split; [apply run_trains|].
  unfold search_trains_route, search_trains. run_M.
  destruct (strptime_ymd date); [|done]. rewrite run_trains.
  by destruct (List.filter _ _).
Qed.

(** X10: every booking request, stored or rejected, takes exactly ten
    selections from the random generator, and no other request takes any:
    after a run the generator has advanced by ten times the number of
    booking requests in it. *)
Theorem X10_generator_advances_ten_per_booking
    (rs : list request) (w : World) :
  rng_pos (random (run rs w))
  = (rng_pos (random w) + 10 * booking_requests rs)%nat /\
  rng_stream (random (run rs w)) = rng_stream (random w).
Proof.
  unfold run, booking_requests. revert w.
  induction rs as [|r rs IH]; intros w; [simpl; split; [lia|done]|].
  cbn [foldl List.filter]. destruct (IH (serve r w)) as [Hp Hs].
  rewrite Hp, Hs, serve_random.
  destruct r; cbn [length advance rng_pos rng_stream]; split; (lia || done).
Qed.

(** ** What happens to a stored booking *)

Lemma set_status_same (b : Booking) : set_status (status b) b = b.
Proof. by destruct b. Qed.

Lemma evolves_refl (d : BookingDoc) : evolves d d.
Proof. unfold evolves. by rewrite set_status_same; auto. Qed.

Lemma evolves_trans (a b c : BookingDoc) :
  evolves a b -> evolves b c -> evolves a c.
Proof.
  unfold evolves. intros (Hi1 & Hd1 & Hs1) (Hi2 & Hd2 & Hs2).
  split; [congruence|]. split.
  - rewrite Hd2 at 1. rewrite Hd1. reflexivity.
  - destruct Hs2 as [Hs2|Hs2]; [|by right]. rewrite Hs2. exact Hs1.
Qed.

Lemma Forall2_evolves_refl (l : list BookingDoc) : Forall2 evolves l l.
Proof. induction l; constructor; auto using evolves_refl. Qed.

Lemma set_status_first_evolves (id : bson_id) (l : list BookingDoc) :
  Forall2 evolves l (fst (set_status_first id "cancelled" l)).
Proof.
  induction l as [|d l IH]; simpl; [constructor|].
  destruct (bool_decide _).
  - destruct (str_eqb _ _); simpl.
    + apply Forall2_evolves_refl.
    + constructor; [|apply Forall2_evolves_refl].
      unfold evolves. simpl. auto.
  - destruct (set_status_first id "cancelled" l) as [l' n]. simpl in *.
    constructor; [apply evolves_refl | exact IH].
Qed.

Lemma serve_evolves (r : request) (w : World) :
  exists l1 l2,
    bookings (serve r w) = l1 ++ l2 /\ Forall2 evolves (bookings w) l1.
Proof.
  exists (bookings (serve r w)), []. rewrite app_nil_r. split; [done|].
  rewrite serve_bookings.
  destruct r; auto using Forall2_evolves_refl, set_status_first_evolves.
Qed.

Lemma Forall2_evolves_trans (l1 l2 l3 : list BookingDoc) :
  Forall2 evolves l1 l2 -> Forall2 evolves l2 l3 -> Forall2 evolves l1 l3.
Proof.
  intros H. revert l3. induction H as [|a b l1 l2 Hab H IH]; intros l3 H3.
  - inversion H3. constructor.
  - inversion H3 as [|? c ? l3' Hbc H3']; subst.
    constructor; [by eapply evolves_trans | by apply IH].
Qed.

Lemma run_evolves (rs : list request) (w : World) :
  exists l1 l2,
    bookings (run rs w) = l1 ++ l2 /\ Forall2 evolves (bookings w) l1.
Proof.
  unfold run. revert w. induction rs as [|r rs IH]; intros w.
  - exists (bookings w), []. simpl. rewrite app_nil_r.
    auto using Forall2_evolves_refl.
  - simpl. destruct (IH (serve r w)) as (k1 & k2 & Hk & Hev).
    destruct (serve_evolves r w) as (l1 & l2 & Hl & Hev0).
    rewrite Hl in Hev.
    apply Forall2_app_inv_l in Hev as (k1a & k1b & Ha & Hb & ->).
    exists k1a, (k1b ++ k2). split.
    + by rewrite Hk, <- app_assoc.
    + by eapply Forall2_evolves_trans.
Qed.

Lemma run_lookup_evolves (rs : list request) (w : World) (i : nat)
    (d : BookingDoc) :
  bookings w !! i = Some d ->
  exists d', bookings (run rs w) !! i = Some d' /\ evolves d d'.
Proof.
  intros Hi. destruct (run_evolves rs w) as (l1 & l2 & Hl & Hev).
  destruct (Forall2_lookup_l _ _ _ _ _ Hev Hi) as (d' & Hi' & He).
  exists d'. split; [|done]. rewrite Hl. by apply lookup_app_l_Some.
Qed.

(** X11: no request deletes, moves or rewrites a stored booking.  After
    any run of requests a booking is still at its place in the collection,
    with the same [_id], PNR, train, user, journey date, passengers, class
    and total fare; its status is what it was, or ["cancelled"]. *)
Theorem X11_stored_booking_changes_in_status_only
    (rs : list request) (w : World) (i : nat) (d : BookingDoc) :
  bookings w !! i = Some d ->
  exists d',
    bookings (run rs w) !! i = Some d' /\
    b_id d' = b_id d /\
    pnr (b_doc d') = pnr (b_doc d) /\
    train (b_doc d') = train (b_doc d) /\
    user (b_doc d') = user (b_doc d) /\
    journeyDate (b_doc d') = journeyDate (b_doc d) /\
    passengers (b_doc d') = passengers (b_doc d) /\
    class_type (b_doc d') = class_type (b_doc d) /\
    totalFare (b_doc d') = totalFare (b_doc d) /\
    (status (b_doc d') = status (b_doc d)
     \/ status (b_doc d') = "cancelled").
Proof.
  intros Hi. destruct (run_lookup_evolves rs w i d Hi) as (d' & Hi' & He).
  exists d'. split; [done|]. destruct He as (Hid & Hd & Hs).
  split; [done|]. rewrite Hd. cbn [set_status pnr train user journeyDate
    passengers class_type totalFare status]. repeat split. exact Hs.
Qed.

Lemma X11_stored_booking_changes_in_status_only_witness :
  exists d',
    bookings (run [CancelTicket "b1";
                   BookTicket (seats_request 1 "AC" "confirmed");
                   GetBookingStatus "ZZZZZZZZZZ"]
                  (world_foreign "confirmed")) !! 0%nat = Some d' /\
    pnr (b_doc d') = "ZZZZZZZZZZ" /\
    passengers (b_doc d') = [mk_passenger "Q" "S9"].
Proof.
  destruct (X11_stored_booking_changes_in_status_only
              [CancelTicket "b1";
               BookTicket (seats_request 1 "AC" "confirmed");
               GetBookingStatus "ZZZZZZZZZZ"]
              (world_foreign "confirmed")
              0%nat (foreign_booking "confirmed") eq_refl)
    as (d' & Hi & _ & Hp & _ & _ & _ & Hpass & _).
  exists d'. split; [exact Hi|]. split; [exact Hp | exact Hpass].
Defined.

(** X12: ["cancelled"] is final.  A stored booking whose status is
    ["cancelled"] is found unchanged at its place after any run of
    requests. *)
Theorem X12_cancelled_booking_never_changes
    (rs : list request) (w : World) (i : nat) (d : BookingDoc) :
  bookings w !! i = Some d ->
  status (b_doc d) = "cancelled" ->
  bookings (run rs w) !! i = Some d.
Proof.
  intros Hi Hc. destruct (run_lookup_evolves rs w i d Hi) as (d' & Hi' & He).
  rewrite Hi'. f_equal. destruct He as (Hid & Hd & Hs).
  assert (status (b_doc d') = status (b_doc d)) as Hst.
  { destruct Hs as [Hs|Hs]; congruence. }
  rewrite Hst, set_status_same in Hd. destruct d, d'. simpl in *. congruence.
Qed.

Lemma X12_cancelled_booking_never_changes_witness :
  bookings (run [CancelTicket "b1";
                 BookTicket (seats_request 1 "SL" "confirmed");
                 CancelTicket "b1"] (world_foreign "cancelled")) !! 0%nat
  = Some (foreign_booking "cancelled").
Proof.
  apply (X12_cancelled_booking_never_changes _ (world_foreign "cancelled")
           0%nat (foreign_booking "cancelled")); reflexivity.
Defined.

(** ** Identifiers: [ObjectId] against path strings *)






(** ** Looking a booking up by its PNR *)

Lemma find_pnr_unique (l : list BookingDoc) (i : nat) (d : BookingDoc) :
  NoDup (pnrs l) -> l !! i = Some d ->
  List.find (fun x => str_eqb (pnr (b_doc x)) (pnr (b_doc d))) l = Some d.
Proof.
  revert i. induction l as [|x l IH]; intros i Hnd Hi; [done|].
  unfold pnrs in Hnd. simpl in Hnd. apply NoDup_cons in Hnd as [Hx Hnd].
  destruct i as [|i]; simpl in *.
  - injection Hi as ->. by rewrite str_eqb_refl.
  - destruct (str_eqb (pnr (b_doc x)) (pnr (b_doc d))) eqn:E.
    + apply str_eqb_eq in E. exfalso. apply Hx. rewrite E.
      apply list_elem_of_In, in_map_iff. exists d. split; [done|].
      apply list_elem_of_In. by eapply list_elem_of_lookup_2.
    + by apply (IH i).
Qed.

(** X14: a stored booking can be fetched by its PNR for good.  When the
    stored PNRs are distinct, then after any run of requests the PNR route
    returns, for the PNR of a stored booking, that booking: the same [_id]
    and fields, with the status as it was or ["cancelled"]. *)
Theorem X14_booking_found_by_pnr_after_any_run
    (rs : list request) (w : World) (i : nat) (d : BookingDoc) :
  NoDup (pnrs (bookings w)) ->
  bookings w !! i = Some d ->
  exists d',
    get_booking_status (pnr (b_doc d)) (run rs w) = (Return d', run rs w) /\
    evolves d d'.
Proof.
  intros Hnd Hi.
  destruct (run_lookup_evolves rs w _ _ Hi) as (d' & Hi' & He).
  assert (NoDup (pnrs (bookings (run rs w)))) as Hnd'
    by (by apply run_pnrs_NoDup).
  assert (pnr (b_doc d') = pnr (b_doc d)) as Hp.
  { destruct He as (_ & Hd & _). by rewrite Hd. }
  exists d'. split; [|done].
  unfold get_booking_status, get_pnr_status. run_M.
  rewrite <- Hp. by rewrite (find_pnr_unique _ _ _ Hnd' Hi').
Qed.

Lemma X14_booking_found_by_pnr_after_any_run_witness :
  let rs := [BookTicket (seats_request 1 "SL" "confirmed");
             CancelTicket "b1"] in
  exists d',
    get_booking_status "ZZZZZZZZZZ" (run rs (world_foreign "confirmed"))
      = (Return d', run rs (world_foreign "confirmed")) /\
    b_id d' = StrId "b1".
Proof.
  cbv zeta.
  destruct (X14_booking_found_by_pnr_after_any_run
              [BookTicket (seats_request 1 "SL" "confirmed");
               CancelTicket "b1"]
              (world_foreign "confirmed") 0%nat (foreign_booking "confirmed")
              (NoDup_singleton _) eq_refl) as (d' & Hg & Hid & _).
  exists d'. split; [exact Hg | exact Hid].
Defined.

(** X15: the PNR route answers 404 exactly when no stored booking has the
    PNR; a document it returns is a stored booking with exactly that
    PNR. *)
Theorem X15_pnr_route_404_iff_not_stored (p : string) (w : World) :
  (get_booking_status p w
     = (Raise (HTTPException 404 "Booking not found"), w)
   <-> ~ In p (pnrs (bookings w))) /\
  (forall d w', get_booking_status p w = (Return d, w') ->
     w' = w /\ In d (bookings w) /\ pnr (b_doc d) = p).
Proof.
  unfold get_booking_status, get_pnr_status. run_M.
  destruct (List.find _ _) as [d|] eqn:E.
  - apply find_some in E as [Hin Hp]. apply str_eqb_eq in Hp. split.
    + split; [intros [=]|]. intros Hn. exfalso. apply Hn.
      unfold pnrs. apply in_map_iff. by exists d.
    + by intros d' w' [= <- <-].
  - split; [|intros ? ? [=]]. split; [|done]. intros _ Hin.
    unfold pnrs in Hin. apply in_map_iff in Hin as (d & Hp & Hin).
    pose proof (find_none _ _ E d Hin) as Hf. simpl in Hf.
    rewrite Hp, str_eqb_refl in Hf. discriminate.
Qed.

(** ** Users *)

#[local] Arguments fresh_user_oid : simpl never.

Ltac run_UM :=
  cbv [mbind UM_bind mret UM_ret raise_u get_users].

Lemma fresh_user_oid_bound (l : list UserDoc) (d : UserDoc) (n : nat) :
  In d l -> u_id d = ObjectId n -> (n < fresh_user_oid l)%nat.
Proof.
  unfold fresh_user_oid. induction l as [|x l IH]; simpl; [tauto|].
  intros [->|Hin] Hid.
  - rewrite Hid. lia.
  - specialize (IH Hin Hid). destruct (u_id x); lia.
Qed.

Lemma find_user_fresh (l l2 : list UserDoc) (u : User) :
  List.find (fun d => bool_decide (u_id d = ObjectId (fresh_user_oid l)))
            (l ++ {| u_id := ObjectId (fresh_user_oid l); u_doc := u |} :: l2)
  = Some {| u_id := ObjectId (fresh_user_oid l); u_doc := u |}.
Proof.
  assert (H : forall d, In d l -> u_id d <> ObjectId (fresh_user_oid l)).
  { intros d Hin Heq. pose proof (fresh_user_oid_bound l d _ Hin Heq). lia. }
  revert H. generalize (fresh_user_oid l) as n. intros n H.
  induction l as [|x l IH]; simpl.
  - by rewrite bool_decide_eq_true_2.
  - rewrite bool_decide_eq_false_2 by (apply H; by left).
    apply IH. intros d Hd. apply H. by right.
Qed.

Lemma register_user_eq (u : User) (us : list UserDoc) :
  register_user u us =
  if existsb (fun d => str_eqb (email (u_doc d)) (email u)) us
  then (Raise DuplicateKeyError, us)
  else (Return {| u_id := ObjectId (fresh_user_oid us); u_doc := u |},
        us ++ [{| u_id := ObjectId (fresh_user_oid us); u_doc := u |}]).
Proof.
  unfold register_user, create_user, insert_one_user. run_UM.
  destruct (existsb _ _); [done|]. by rewrite find_user_fresh.
Qed.

Lemma email_stored_false (e : string) (l : list UserDoc) :
  existsb (fun d => str_eqb (email (u_doc d)) e) l = false
  <-> ~ In e (map (fun d => email (u_doc d)) l).
Proof.
  induction l as [|d l IH]; simpl; [tauto|].
  rewrite orb_false_iff, IH. unfold str_eqb.
  rewrite bool_decide_eq_false. tauto.
Qed.

(** X16: registration stores the user as sent under a new [ObjectId] and
    returns that document, unless a stored user has the same email: then
    the unique index makes it raise the duplicate-key error and nothing is
    stored.  It never answers 400 "User registration failed". *)
Theorem X16_register_user_outcomes (u : User) (us : list UserDoc) :
  (In (email u) (map (fun d => email (u_doc d)) us) ->
   register_user u us = (Raise DuplicateKeyError, us)) /\
  (~ In (email u) (map (fun d => email (u_doc d)) us) ->
   exists d,
     register_user u us = (Return d, us ++ [d]) /\
     u_doc d = u /\ is_object_id (u_id d) = true /\
     forall x, In x us -> u_id x <> u_id d) /\
  (forall code detail us',
     register_user u us <> (Raise (HTTPException code detail), us')).
Proof.
  rewrite register_user_eq.
  destruct (existsb _ _) eqn:E.
  - split; [done|]. split; [|done]. intros Hn.
    apply email_stored_false in Hn. congruence.
  - apply email_stored_false in E. split; [done|]. split; [|done].
    intros _. eexists. split; [reflexivity|]. split; [done|].
    split; [done|]. intros x Hin Heq. simpl in Heq.
    pose proof (fresh_user_oid_bound us x _ Hin Heq). lia.
Qed.

Lemma X16_register_user_outcomes_witness :
  (exists d, register_user alice [] = (Return d, [d]) /\ u_doc d = alice) /\
  register_user alice (snd (register_user alice []))
  = (Raise DuplicateKeyError, snd (register_user alice [])).
Proof.
  split.
  - destruct (X16_register_user_outcomes alice []) as (_ & H & _).
    destruct H as (d & Hr & Hd & _); [simpl; tauto|].
    exists d. split; [exact Hr | exact Hd].
  - destruct (X16_register_user_outcomes alice
                (snd (register_user alice []))) as (H & _).
    apply H. simpl. left. reflexivity.
Defined.

Lemma serve_user_append (r : user_request) (us : list UserDoc) :
  serve_user r us = us \/
  exists u,
    r = RegisterUser u /\
    ~ In (email u) (map (fun d => email (u_doc d)) us) /\
    serve_user r us
    = us ++ [{| u_id := ObjectId (fresh_user_oid us); u_doc := u |}].
Proof.
  destruct r as [u|i]; cbn [serve_user].
  - rewrite register_user_eq. destruct (existsb _ _) eqn:E; [by left|].
    right. exists u. apply email_stored_false in E. done.
  - left. unfold get_user_info, get_user. run_UM.
    by destruct (List.find _ _).
Qed.

(** X17: the stored emails stay distinct, and no stored user is ever
    changed or removed: a run of user requests only appends users. *)
Theorem X17_user_emails_stay_distinct
    (rs : list user_request) (us : list UserDoc) :
  NoDup (map (fun d => email (u_doc d)) us) ->
  NoDup (map (fun d => email (u_doc d)) (run_users rs us)) /\
  exists l2, run_users rs us = us ++ l2.
Proof.
  unfold run_users. revert us. induction rs as [|r rs IH]; intros us Hnd.
  - split; [done|]. exists []. simpl. by rewrite app_nil_r.
  - simpl. destruct (serve_user_append r us) as [->|(u & _ & Hn & ->)].
    + by apply IH.
    + destruct (IH (us ++ [{| u_id := ObjectId (fresh_user_oid us);
                              u_doc := u |}])) as (H1 & l2 & H2).
      { rewrite map_app. apply NoDup_app. split; [done|]. split.
        - intros x Hx Hin. apply list_elem_of_In in Hin. simpl in Hin.
          destruct Hin as [<-|[]]. apply Hn. by apply list_elem_of_In.
        - apply NoDup_singleton. }
      split; [done|]. eexists. rewrite H2, <- app_assoc. reflexivity.
Qed.

Lemma X17_user_emails_stay_distinct_witness :
  NoDup (map (fun d => email (u_doc d))
             (run_users [RegisterUser alice; RegisterUser alice;
                         GetUserInfo "1"] [])).
Proof.
  destruct (X17_user_emails_stay_distinct
              [RegisterUser alice; RegisterUser alice; GetUserInfo "1"] []
              NoDup_nil_2) as [H _].
  exact H.
Defined.

(** X18: a registered user can be fetched by the [_id] of the returned
    document, right away and after any further run of user requests. *)
Theorem X18_get_user_finds_registered_user
    (u : User) (rs : list user_request) (us us' : list UserDoc)
    (d : UserDoc) :
  register_user u us = (Return d, us') ->
  get_user (u_id d) (run_users rs us')
  = (Return (Some d), run_users rs us').
Proof.
  rewrite register_user_eq. destruct (existsb _ _) eqn:E; [discriminate|].
  intros [= <- <-]. apply email_stored_false in E.
  assert (exists l2,
            run_users rs (us ++ [{| u_id := ObjectId (fresh_user_oid us);
                                    u_doc := u |}])
            = (us ++ [{| u_id := ObjectId (fresh_user_oid us);
                         u_doc := u |}]) ++ l2) as (l2 & ->).
  { generalize (us ++ [{| u_id := ObjectId (fresh_user_oid us);
                          u_doc := u |}]) as vs.
    unfold run_users. induction rs as [|r rs IH]; intros vs.
    - exists []. simpl. by rewrite app_nil_r.
    - simpl. destruct (serve_user_append r vs) as [->|(x & _ & _ & ->)].
      + apply IH.
      + destruct (IH (vs ++ [{| u_id := ObjectId (fresh_user_oid vs);
                                u_doc := x |}])) as (l2 & ->).
        eexists. rewrite <- app_assoc. reflexivity. }
  unfold get_user. run_UM. cbn [u_id].
  rewrite <- app_assoc. cbn [app]. by rewrite find_user_fresh.
Qed.

Lemma X18_get_user_finds_registered_user_witness :
  exists d us',
    register_user alice [] = (Return d, us') /\
    get_user (u_id d) (run_users [RegisterUser alice] us')
    = (Return (Some d), run_users [RegisterUser alice] us').
Proof.
  eexists _, _. split; [reflexivity|].
  apply (X18_get_user_finds_registered_user alice [RegisterUser alice] []).
  reflexivity.
Defined.

Lemma get_user_info_object_ids (i : string) (us : list UserDoc) :
  Forall (fun d => is_object_id (u_id d) = true) us ->
  get_user_info i us = (Raise (HTTPException 404 "User not found"), us).
Proof.
  intros H. unfold get_user_info, get_user. run_UM.
  replace (List.find _ us) with (@None UserDoc); [done|].
  symmetry. induction H as [|d l Hd _ IH]; simpl; [done|].
  rewrite bool_decide_eq_false_2; [done|].
  intros E. rewrite E in Hd. discriminate.
Qed.

(** X19: the user route cannot return a user stored under an
    [ObjectId], which is how [create_user] stores every user: it looks for
    an [_id] equal to the string of the path.  When all stored users have
    [ObjectId]s (an empty store, for one) this stays so after any run of
    user requests, and every [get_user_info] call answers 404. *)
Theorem X19_user_route_never_finds_registered_users
    (rs : list user_request) (us : list UserDoc) :
  Forall (fun d => is_object_id (u_id d) = true) us ->
  Forall (fun d => is_object_id (u_id d) = true) (run_users rs us) /\
  forall user_id,
    get_user_info user_id (run_users rs us)
    = (Raise (HTTPException 404 "User not found"), run_users rs us).
Proof.
  intros H.
  assert (Forall (fun d => is_object_id (u_id d) = true) (run_users rs us))
    as Hf.
  { unfold run_users. revert us H. induction rs as [|r rs IH]; intros us H;
      [done|].
    simpl. apply IH.
    destruct (serve_user_append r us) as [->|(u & _ & _ & ->)]; [done|].
    apply Forall_app. split; [done|]. by constructor. }
  split; [done|]. intros user_id. by apply get_user_info_object_ids.
Qed.

Lemma X19_user_route_never_finds_registered_users_witness :
  get_user_info "1" (run_users [RegisterUser alice] [])
  = (Raise (HTTPException 404 "User not found"),
     run_users [RegisterUser alice] []).
Proof.
  destruct (X19_user_route_never_finds_registered_users
              [RegisterUser alice] [] (Forall_nil_2 _)) as [_ H].
  apply H.
Defined.

(** ** The PNRs in the store *)




Lemma X15_pnr_route_404_iff_not_stored_witness :
  get_booking_status "AAAAAAAAAA" world0
  = (Raise (HTTPException 404 "Booking not found"), world0).
Proof.
  destruct (X15_pnr_route_404_iff_not_stored "AAAAAAAAAA" world0)
    as [[_ H] _].
  apply H. simpl. tauto.
Defined.
